(** * Power Platform Terraform provider: the HTTP execution and retry layer

    A shallow embedding of the request pipeline of the provider
    (internal/api/client.go as excerpted in the repository's issue
    reports, internal/services/rest/api_rest.go, internal/helpers/uri.go,
    the Power Pages client and the application-user client), together
    with the properties of the specification that concern it.

    Conventions.
    - Go [int] and [time.Duration] values are [Z]; a duration counts
      nanoseconds as in Go.  Every value computed below stays far inside
      the 64-bit range, so no wrap-around is written out.
    - Go strings are [string]; [len] is [String.length] (bytes).
    - A Go [error] is [option string]: [None] is [nil], [Some m] an
      error whose [Error()] text is [m].
    - A Go computation that may panic lives in the [go] monad below.
    - Unbounded [for] loops take a [fuel] argument; a run that uses up
      its fuel is reported as [StillRunning], never as a result. *)

From Stdlib Require Import ZArith List String Ascii Bool Lia Arith.
Import ListNotations.
Local Open Scope string_scope.
Local Open Scope Z_scope.

(** ** Go runtime pieces shared by the packages *)

Module Go.

(** Outcome of a Go call: a value is returned or the goroutine panics. *)
Inductive go (A : Type) : Type :=
| Ret (a : A)
| Panic (msg : string).
Arguments Ret {A} a.
Arguments Panic {A} msg.

Definition bind {A B : Type} (m : go A) (k : A -> go B) : go B :=
  match m with
  | Ret a => k a
  | Panic msg => Panic msg
  end.

Definition panics {A : Type} (m : go A) : Prop :=
  exists msg, m = Panic msg.

Module Import Notations.
Notation "x <- m ;; k" := (bind m (fun x => k))
  (at level 61, m at next level, right associativity).
End Notations.

Definition error : Type := option string.

Definition is_nil (e : error) : bool :=
  match e with None => true | Some _ => false end.

(** [len(s)] as a Go int. *)
Definition len (s : string) : Z := Z.of_nat (String.length s).

(** [s[lo:]]: panics unless [0 <= lo <= len(s)]. *)
Definition slice_from (s : string) (lo : Z) : go string :=
  if (0 <=? lo) && (lo <=? len s)
  then Ret (substring (Z.to_nat lo) (String.length s - Z.to_nat lo) s)
  else Panic "runtime error: slice bounds out of range".

(** [s[:hi]]: panics unless [0 <= hi <= len(s)]. *)
Definition slice_to (s : string) (hi : Z) : go string :=
  if (0 <=? hi) && (hi <=? len s)
  then Ret (substring 0 (Z.to_nat hi) s)
  else Panic "runtime error: slice bounds out of range".

(** [strings.ReplaceAll(s, old, new)] for a one-byte [old]. *)
Fixpoint ReplaceAll (s : string) (old : ascii) (new : string) : string :=
  match s with
  | EmptyString => EmptyString
  | String c rest =>
      if Ascii.eqb c old
      then new ++ ReplaceAll rest old new
      else String c (ReplaceAll rest old new)
  end.

(** [strings.Contains(s, substr)]. *)
Definition Contains (s substr : string) : bool :=
  match index 0 substr s with
  | Some _ => true
  | None => false
  end.

(** [array.Contains] of the provider's helpers on [[]int]. *)
Definition array_Contains (l : list Z) (x : Z) : bool :=
  existsb (Z.eqb x) l.

(** net/http status constants used by the provider. *)
Definition StatusOK : Z := 200.
Definition StatusAccepted : Z := 202.
Definition StatusNoContent : Z := 204.
Definition StatusBadRequest : Z := 400.
Definition StatusUnauthorized : Z := 401.
Definition StatusForbidden : Z := 403.
Definition StatusNotFound : Z := 404.
Definition StatusConflict : Z := 409.
Definition StatusTooManyRequests : Z := 429.
Definition StatusInternalServerError : Z := 500.
Definition StatusBadGateway : Z := 502.
Definition StatusServiceUnavailable : Z := 503.
Definition StatusGatewayTimeout : Z := 504.

(** time.Duration units. *)
Definition Nanosecond : Z := 1.
Definition Second : Z := 1000000000.
Definition Minute : Z := 60 * Second.

(** [rand.Intn(n)] applied to the raw value the generator yields. *)
Definition Intn (n raw : Z) : Z := raw mod n.

End Go.
Import Go.

(** ** internal/api/client.go *)

Module Api.

(** A scalar of a marshalled DTO. *)
Inductive JsonValue : Type :=
| JsonString (s : string)
| JsonNumber (n : Z).

(** A request body ([body any]): a raw JSON string or a DTO that is
    marshalled field by field. *)
Inductive Body : Type :=
| RawJson (s : string)
| Dto (fields : list (string * JsonValue)).

(** What a caller hands to [Execute] besides the acceptable codes. *)
Record Request : Type := mkRequest {
  scopes : list string;
  method : string;
  url : string;
  headers : list (string * string);
  body : option Body
}.

Record Response : Type := mkResponse {
  StatusCode : Z;
  Status : string;
  RetryAfterHeader : option Z;   (* seconds, when the header is present *)
  BodyAsBytes : string
}.

(** Modelled from the spec: the entries of [retryableStatusCodes] that
    the excerpt of client.go elides after its first line (401); the
    specification lists 429, 500, 502, 503 and 504. *)
Definition retryableStatusCodes_elided : list Z :=
  [StatusTooManyRequests; StatusInternalServerError; StatusBadGateway;
   StatusServiceUnavailable; StatusGatewayTimeout].

Definition retryableStatusCodes : list Z :=
  StatusUnauthorized (* 401 is retryable because the token may have expired. *)
  :: retryableStatusCodes_elided.

(** [time.Duration((rand.Intn(10) + 10)) * time.Second]; [raw] is the
    value the random generator hands to [Intn]. *)
Definition DefaultRetryAfter (raw : Z) : Z :=
  (Intn 10 raw + 10) * Second.

(** Modelled from the spec: the clamp on a [Retry-After] value, 120
    seconds in the specification's example. *)
Definition maxRetryAfterSeconds : Z := 120.

(** Modelled from the spec: [retryAfter], called by [Execute] but not
    part of the excerpt.  A [Retry-After] header is honoured, clamped
    to 120 seconds; without one the default interval is used. *)
Definition retryAfter (resp : Response) (raw : Z) : Z :=
  match RetryAfterHeader resp with
  | Some secs => Z.min (Z.max secs 0) maxRetryAfterSeconds * Second
  | None => DefaultRetryAfter raw
  end.

(** Modelled from the spec: the test of the response against the
    caller's [acceptableStatusCodes], which the excerpt of [Execute]
    elides before its retryable test (section 4.3: a status in the
    caller-supplied acceptable set is success, anything else is
    classified by the retry logic). *)
Definition isAcceptable (acceptableStatusCodes : list Z) (resp : Response) : bool :=
  array_Contains acceptableStatusCodes (StatusCode resp).

Inductive error : Type :=
| UnexpectedHttpStatusCodeError
    (acceptable : list Z) (code : Z) (status : string) (body : string)
| Errorf (msg : string).

(** What the loop does, in order. [EvForceRefresh] is the forced token
    refresh of the specification; it is part of the alphabet so that
    properties about it can be stated over traces. *)
Inductive Event : Type :=
| EvRequest (attempt : nat) (resp : Response)
| EvSleep (d : Z)
| EvForceRefresh.

Inductive Outcome : Type :=
| Returned (resp : Response) (err : option error)
| StillRunning.

(** The world [Execute] talks to: the response the server gives to the
    n-th submission of a request and the raw random value available at
    the n-th attempt. *)
Record Env : Type := mkEnv {
  server : Request -> nat -> Response;
  rand : nat -> Z
}.

(** The body of [for { ... }] in [Client.Execute], from attempt
    [attempt] on: the request, the acceptable test, the retryable
    test with its early return, [waitFor := retryAfter(...)] and the
    wait.  The loop has no exit but its two returns.  Token
    acquisition, transport failures, the context and the decoding into
    [responseObj], which the excerpt elides too, are left out: every
    request gets a response and every wait runs to its end. *)
Fixpoint Execute_loop (fuel : nat) (env : Env) (req : Request)
         (acceptableStatusCodes : list Z) (attempt : nat)
  : list Event * Outcome :=
  match fuel with
  | O => ([], StillRunning)
  | S fuel' =>
      let resp := server env req attempt in
      if isAcceptable acceptableStatusCodes resp then
        ([EvRequest attempt resp], Returned resp None)
      else
        let isRetryable := array_Contains retryableStatusCodes (StatusCode resp) in
        if negb isRetryable then
          ([EvRequest attempt resp],
           Returned resp
             (Some (UnexpectedHttpStatusCodeError acceptableStatusCodes
                      (StatusCode resp) (Status resp) (BodyAsBytes resp))))
        else
          let waitFor := retryAfter resp (rand env attempt) in
          let '(tr, out) :=
            Execute_loop fuel' env req acceptableStatusCodes (S attempt) in
          (EvRequest attempt resp :: EvSleep waitFor :: tr, out)
  end.

Definition Execute (fuel : nat) (env : Env) (req : Request)
           (acceptableStatusCodes : list Z) : list Event * Outcome :=
  Execute_loop fuel env req acceptableStatusCodes 0.

(** Observations on a trace. *)
Fixpoint requests (tr : list Event) : nat :=
  match tr with
  | [] => O
  | EvRequest _ _ :: tr' => S (requests tr')
  | _ :: tr' => requests tr'
  end.

Fixpoint sleeps (tr : list Event) : list Z :=
  match tr with
  | [] => []
  | EvSleep d :: tr' => d :: sleeps tr'
  | _ :: tr' => sleeps tr'
  end.

Fixpoint refreshes (tr : list Event) : nat :=
  match tr with
  | [] => O
  | EvForceRefresh :: tr' => S (refreshes tr')
  | _ :: tr' => refreshes tr'
  end.

(** The specification's rule for 401: a request that follows a 401
    response is preceded by a forced refresh issued after that
    response. [seen401] records that the last response was a 401 not
    yet followed by a refresh. *)
Fixpoint refresh_precedes_401_retry (seen401 : bool) (tr : list Event) : bool :=
  match tr with
  | [] => true
  | EvRequest _ resp :: tr' =>
      negb seen401
      && refresh_precedes_401_retry (StatusCode resp =? StatusUnauthorized) tr'
  | EvSleep _ :: tr' => refresh_precedes_401_retry seen401 tr'
  | EvForceRefresh :: tr' => refresh_precedes_401_retry false tr'
  end.

(** Requests submitted right after a 401 response. *)
Fixpoint retries_after_401 (seen401 : bool) (tr : list Event) : nat :=
  match tr with
  | [] => O
  | EvRequest _ resp :: tr' =>
      let rest := retries_after_401 (StatusCode resp =? StatusUnauthorized) tr' in
      if seen401 then S rest else rest
  | _ :: tr' => retries_after_401 seen401 tr'
  end.

(** The specification's backoff for attempt [attempt] with jitter
    [jitter] given in thousandths: [min(maxDelay, base * 2^attempt)]
    scaled by [1 + jitter/1000]. *)
Definition exponentialBackoff (base maxDelay : Z) (attempt : nat) (jitter : Z) : Z :=
  Z.min maxDelay (base * 2 ^ Z.of_nat attempt) * (1000 + jitter) / 1000.

(** A server that answers every request with the same response. *)
Definition constant_server (resp : Response) : Request -> nat -> Response :=
  fun _ _ => resp.

(** A server that plays a script and repeats [last] afterwards. *)
Definition scripted_server (script : list Response) (last : Response)
  : Request -> nat -> Response :=
  fun _ n => nth n script last.

Definition plain (code : Z) (body : string) : Response :=
  mkResponse code "" None body.

Definition anyRequest : Request :=
  mkRequest [] "GET" "https://api.bap.microsoft.com/" [] None.

End Api.

(** ** internal/services/rest/api_rest.go *)

Module Rest.

(** [h := http.Header{}; for k, v := range headers { h.Add(k, v) }],
    with the headers in the order given.  Neither the canonical form
    [Header.Add] gives to a key nor the order in which Go ranges over
    the map is modelled. *)
Definition addHeaders (hdrs : list (string * string)) : list (string * string) :=
  fold_left (fun h kv => (h ++ [kv])%list) hdrs [].

Definition ExecuteApiRequest (fuel : nat) (env : Api.Env)
           (scope : option string) (url method : string) (body : option string)
           (headers : list (string * string)) (expectedStatusCodes : list Z)
  : go (list Api.Event * Api.Outcome) :=
  let h := addHeaders headers in
  match scope with
  | Some s =>
      Ret (Api.Execute fuel env
             (Api.mkRequest [s] method url h (option_map Api.RawJson body))
             expectedStatusCodes)
  | None => Panic "scope or evironment_id must be provided"
  end.

End Rest.

(** ** internal/helpers/uri.go *)

Module Helpers.
Import Go.Notations.

Definition BuildEnvironmentHostUri (environmentId powerPlatformUrl : string)
  : go string :=
  let envId := ReplaceAll environmentId "-" "" in
  realm <- slice_from envId (len envId - 2) ;;
  envId' <- slice_to envId (len envId - 2) ;;
  Ret (envId' ++ "." ++ realm ++ ".environment." ++ powerPlatformUrl)%string.

End Helpers.

(** ** internal/services/powerpages: the Power Pages client *)

Module PowerPages.

Record WebsiteCreateDto : Type := mkWebsiteCreateDto {
  DataverseOrganizationId : string;
  Name : string;
  SelectedBaseLanguage : Z;
  Subdomain : string;
  TemplateName : string;
  WebsiteRecordId : string
}.

Definition websiteStatusCodes : list Z :=
  [StatusUnauthorized; StatusBadRequest; StatusAccepted; StatusNotFound].

(** The six fields of [WebsiteCreateDto] under their JSON names. *)
Definition websiteBody (website : WebsiteCreateDto) : Api.Body :=
  Api.Dto
    [("dataverseOrganizationId", Api.JsonString (DataverseOrganizationId website));
     ("name", Api.JsonString (Name website));
     ("selectedBaseLanguage", Api.JsonNumber (SelectedBaseLanguage website));
     ("subdomain", Api.JsonString (Subdomain website));
     ("templateName", Api.JsonString (TemplateName website));
     ("websiteRecordId", Api.JsonString (WebsiteRecordId website))].

(** The request of [CreateWebsite].  The URL is written from the
    fields the code sets ([Scheme], [Host], [Path], [RawQuery]); the
    percent-escaping [url.URL.String()] applies to the path is not
    modelled. *)

Definition websiteRequest (powerPlatformUrl : string) (website : WebsiteCreateDto)
  : Api.Request :=
  Api.mkRequest [] "POST"
    ("https://" ++ powerPlatformUrl ++ "/powerpages/environments/"
     ++ DataverseOrganizationId website
     ++ "/websites?api-version=2022-03-01-preview")%string
    [] (Some (websiteBody website)).

(** The part of [CreateWebsite] after [Execute] has returned. *)
Definition websiteResult (resp : Api.Response) (err : option Api.error)
  : option Api.error :=
  match err with
  | Some e => Some e
  | None =>
      if negb (Api.StatusCode resp =? StatusAccepted)
      then Some (Api.Errorf
                   ("unexpected status code: " ++ Api.BodyAsBytes resp)%string)
      else None
  end.

(** [None]: the call inside is still retrying; [Some e]: the returned
    error value ([Some None] is a nil error). *)
Definition CreateWebsite (fuel : nat) (env : Api.Env) (powerPlatformUrl : string)
           (website : WebsiteCreateDto) : option (option Api.error) :=
  match Api.Execute fuel env (websiteRequest powerPlatformUrl website)
          websiteStatusCodes with
  | (_, Api.Returned resp err) => Some (websiteResult resp err)
  | (_, Api.StillRunning) => None
  end.

End PowerPages.

(** ** internal/powerplatform/services/application_user: the client *)

Module ApplicationUser.

(** [context.Context] on a virtual clock: the instant from which the
    context is done (canceled or past its deadline), if any, and the
    text of the error it reports from then on. *)
Record Context : Type := mkContext {
  doneAt : option Z;
  doneText : string
}.

Definition isDone (ctx : Context) (now : Z) : bool :=
  match doneAt ctx with
  | Some t => t <=? now
  | None => false
  end.

(** [ctx.Err()] *)
Definition Err (ctx : Context) (now : Z) : error :=
  if isDone ctx now then Some (doneText ctx) else None.

Record SecurityRoleDto : Type := mkSecurityRoleDto {
  RoleId : string;
  RoleName : string;
  IsManaged : bool;
  RoleBusinessUnitId : string
}.

Record ApplicationUserDto : Type := mkApplicationUserDto {
  Id : string;
  ApplicationName : string;
  BusinessUnitId : string;
  SecurityRoles : list SecurityRoleDto
}.

(** What [CreateApplicationUser] does on the clock: a call of
    [client.Api.Execute] with the error it returned, or a sleep. *)
Inductive Step : Type :=
| StExecute (start stop : Z) (err : error)
| StSleep (start stop : Z).

Section Client.

(** [client.Api.Execute] for the addUser POST, called under [ctx] at
    the given instant: the error it returns and the instant at
    which it returns. *)
Variable Execute : Context -> Z -> error * Z.

(** [client.GetApplicationUserBySystemApplicationUserId], likewise. *)
Variable GetApplicationUserBySystemApplicationUserId :
  Context -> Z -> option ApplicationUserDto * error * Z.

(** [for retryCount > 0 { ... }]: returns the last value of [err],
    the instant at which the loop is left and what happened. *)
Fixpoint retryLoop (retryCount : nat) (err : error) (ctx : Context) (now : Z)
  : error * Z * list Step :=
  match retryCount with
  | O => (err, now, [])
  | S retryCount' =>
      let '(err', t1) := Execute ctx now in
      let stop :=
        match err' with
        | None => true
        | Some text => negb (Contains text "userNotLicensed")
        end in
      if stop then (err', t1, [StExecute now t1 err'])
      else
        (* time.Sleep(10 * time.Second) *)
        let t2 := t1 + 10 * Second in
        let '(e, t, tr) := retryLoop retryCount' err' ctx t2 in
        (e, t, StExecute now t1 err' :: StSleep t1 t2 :: tr)
  end.

Definition CreateApplicationUser (ctx : Context) (now : Z)
  : option ApplicationUserDto * error * Z * list Step :=
  let retryCount := (6 * 9)%nat in (* 9 minutes of retries *)
  let err : error := Some "" in
  let '(err, t, tr) := retryLoop retryCount err ctx now in
  match err with
  | Some text => (None, Some text, t, tr)
  | None =>
      let '(applicationuser, err, t') :=
        GetApplicationUserBySystemApplicationUserId ctx t in
      match err with
      | Some text => (None, Some text, t', tr)
      | None => (applicationuser, None, t', tr)
      end
  end.

End Client.

Fixpoint executions (tr : list Step) : nat :=
  match tr with
  | [] => O
  | StExecute _ _ _ :: tr' => S (executions tr')
  | StSleep _ _ :: tr' => executions tr'
  end.

Fixpoint sleptTime (tr : list Step) : Z :=
  match tr with
  | [] => 0
  | StSleep start stop :: tr' => (stop - start) + sleptTime tr'
  | StExecute _ _ _ :: tr' => sleptTime tr'
  end.

(** Sleeps that end when the context is already done. *)
Fixpoint sleepsEndingDone (ctx : Context) (tr : list Step) : nat :=
  match tr with
  | [] => O
  | StSleep _ stop :: tr' =>
      if isDone ctx stop then S (sleepsEndingDone ctx tr')
      else sleepsEndingDone ctx tr'
  | StExecute _ _ _ :: tr' => sleepsEndingDone ctx tr'
  end.

(** The specification's rule for waits: a wait returns within [bound]
    of the context being done (or of its own start, when the context
    was done before). *)
Definition waitIsPrompt (ctx : Context) (bound : Z) (st : Step) : bool :=
  match st, doneAt ctx with
  | StSleep start stop, Some t => stop <=? Z.max start t + bound
  | _, _ => true
  end.

Definition waitsArePrompt (ctx : Context) (bound : Z) (tr : list Step) : bool :=
  forallb (waitIsPrompt ctx bound) tr.

(** A server on which the user never gets licensed, behind an
    [Execute] that takes one second and gives up at once on a done
    context. *)
Definition unlicensedExecute (ctx : Context) (now : Z) : error * Z :=
  match Err ctx now with
  | Some text => (Some text, now)
  | None => (Some "Unexpected HTTP status code: userNotLicensed", now + Second)
  end.

Definition noUser (ctx : Context) (now : Z)
  : option ApplicationUserDto * error * Z :=
  (None, Some "not found", now).

Definition Canceled : string := "context canceled".

(** A context canceled before the call. *)
Definition doneFromStart : Context := mkContext (Some 0) Canceled.

End ApplicationUser.

(** ** Waiting and sending under a context *)

Module Cancellation.

Import ApplicationUser.

(** Modelled from the spec: a wait that respects the context (sections
    4.4 and 5 and the testable properties; the backoff wait of the
    Retry Controller and the poll wait are not among the sources).  It
    ends when the interval [d] has passed or, if that comes first, at
    the instant the context is done, and then with the context's
    error; with a context that is already done it ends at once. *)
Definition waitWithContext (ctx : Context) (now d : Z) : error * Z :=
  match doneAt ctx with
  | Some t =>
      if t <=? now then (Some (doneText ctx), now)
      else if t <=? now + d then (Some (doneText ctx), t)
      else (None, now + d)
  | None => (None, now + d)
  end.

(** Modelled from the spec: the request send under a context (section
    4.3 and the testable properties; [Execute] of the application-user
    client is not among the sources).  With a context that is done it
    returns the context's error at once; otherwise [request] gives the
    error the exchange ends with and the instant at which it ends, for
    the instant at which it starts. *)
Definition Send (request : Z -> error * Z) (ctx : Context) (now : Z) : error * Z :=
  match Err ctx now with
  | Some text => (Some text, now)
  | None => request now
  end.

(** An exchange of one second that ends with the report that the user
    has no licence yet. *)
Definition notLicensedYet (now : Z) : error * Z :=
  (Some "Unexpected HTTP status code: userNotLicensed", now + Second).

Definition DeadlineExceeded : string := "context deadline exceeded".

(** A context whose deadline is the end of the first second. *)
Definition deadlineAtOneSecond : Context :=
  mkContext (Some Second) DeadlineExceeded.

End Cancellation.

(** ** The long-running operation poller *)

Module Lro.

Inductive Phase : Type :=
| Created | Running | Succeeded | Failed | Canceled | TimedOut.

Definition terminal (p : Phase) : bool :=
  match p with
  | Succeeded | Failed | Canceled | TimedOut => true
  | Created | Running => false
  end.

(** The answer to one GET on the operation URL. *)
Record PollResponse : Type := mkPollResponse {
  code : Z;
  status : string;            (* the parsed status field *)
  retryAfter : option Z;      (* the server's hint for the next poll *)
  body : string
}.

Record Config : Type := mkConfig {
  pollInterval : Z;
  maxWait : Z
}.

Inductive Result : Type :=
| FinalBody (b : string)
| OperationFailedError (detail : string)
| OperationCanceledError
| TimeoutError.

(** Modelled from the spec: one transition of the poller's state
    machine on a poll response (section 4.5; the poller's code is not
    among the sources).  A 409 is transient; a status that reports
    completion, failure or cancellation is terminal; anything else
    leaves the operation running. *)
Definition classify (r : PollResponse) : Phase :=
  if code r =? StatusConflict then Running
  else if String.eqb (status r) "Succeeded" then Succeeded
  else if String.eqb (status r) "Failed" then Failed
  else if String.eqb (status r) "Canceled" then Canceled
  else Running.

(** Modelled from the spec: the wait before the next poll, the
    server's hint when it gives a positive one, the fixed interval
    otherwise. *)
Definition sleepFor (cfg : Config) (r : PollResponse) : Z :=
  match retryAfter r with
  | Some hint => if 0 <? hint then hint else pollInterval cfg
  | None => pollInterval cfg
  end.

(** Modelled from the spec: the poll loop (section 4.5).  [k] counts
    the polls made and [elapsed] the time waited so far; the result
    lists the phase reached after each poll.  [None] means the loop
    is still running when the fuel is used up. *)
Fixpoint poll (fuel : nat) (cfg : Config) (server : nat -> PollResponse)
         (k : nat) (elapsed : Z) : list Phase * option Result :=
  match fuel with
  | O => ([], None)
  | S fuel' =>
      if maxWait cfg <=? elapsed then ([TimedOut], Some TimeoutError)
      else
        let r := server k in
        match classify r with
        | Succeeded => ([Succeeded], Some (FinalBody (body r)))
        | Failed => ([Failed], Some (OperationFailedError (body r)))
        | Canceled => ([Canceled], Some OperationCanceledError)
        | _ =>
            let '(tr, res) :=
              poll fuel' cfg server (S k) (elapsed + sleepFor cfg r) in
            (Running :: tr, res)
        end
  end.

(** Modelled from the spec: the poller from the 202 response that
    creates it (phase [Created]) to the value handed to the caller. *)
Definition run (fuel : nat) (cfg : Config) (server : nat -> PollResponse)
  : list Phase * option Result :=
  let '(tr, res) := poll fuel cfg server 0 0 in (Created :: tr, res).

(** Fuel that always suffices: every poll that leaves the operation
    running moves the clock by at least one unit. *)
Definition enoughFuel (cfg : Config) : nat := S (Z.to_nat (maxWait cfg)).

(** The phase in which each result is handed to the caller. *)
Definition phaseOf (res : Result) : Phase :=
  match res with
  | FinalBody _ => Succeeded
  | OperationFailedError _ => Failed
  | OperationCanceledError => Canceled
  | TimeoutError => TimedOut
  end.

(** Time spent waiting after polls [k], ..., [k + n - 1]. *)
Fixpoint waited (cfg : Config) (server : nat -> PollResponse) (k n : nat) : Z :=
  match n with
  | O => 0
  | S n' => sleepFor cfg (server k) + waited cfg server (S k) n'
  end.

Definition script (l : list PollResponse) (last : PollResponse)
  : nat -> PollResponse :=
  fun n => nth n l last.

Definition tenSecondsForAnHour : Config :=
  mkConfig (10 * Second) (60 * Minute).

Definition running202 : PollResponse :=
  mkPollResponse StatusAccepted "Running" None "".

Definition succeeded200 (b : string) : PollResponse :=
  mkPollResponse StatusOK "Succeeded" None b.

End Lro.

(** ** More of the Go library: strings and slices *)

Module GoStrings.

(** [strings.HasPrefix] and [strings.TrimPrefix]. *)
Definition HasPrefix (s p : string) : bool := prefix p s.

Definition TrimPrefix (s p : string) : string :=
  if HasPrefix s p
  then substring (String.length p) (String.length s - String.length p) s
  else s.

(** [strings.HasSuffix] and [strings.TrimSuffix]. *)
Definition HasSuffix (s suffix : string) : bool :=
  (String.length suffix <=? String.length s)%nat
  && String.eqb
       (substring (String.length s - String.length suffix) (String.length suffix) s)
       suffix.

Definition TrimSuffix (s suffix : string) : string :=
  if HasSuffix s suffix
  then substring 0 (String.length s - String.length suffix) s
  else s.

(** A Go slice: [None] is the nil slice, [Some l] a slice with the
    elements [l] (possibly none). *)
Definition slice (A : Type) : Type := option (list A).

Definition slice_len {A : Type} (s : slice A) : nat :=
  match s with
  | None => O
  | Some l => List.length l
  end.

(** [append(s, x)] *)
Definition append {A : Type} (s : slice A) (x : A) : slice A :=
  match s with
  | None => Some [x]
  | Some l => Some (l ++ [x])%list
  end.

End GoStrings.

(** ** internal/customerrors/provider_error.go *)

Module CustomErrors.

Definition ErrorCode : Type := string.

(** The error values that occur: what [fmt.Errorf] builds without and
    with a [%w] verb, and the provider's own struct. *)
#[warnings="-register-all"] Inductive goerror : Type :=
| errorString (text : string)
| wrapError (text : string) (err : goerror)
| ProviderError (Err : option goerror) (code : ErrorCode).

Section ProviderErrorMethods.

(** The methods of [ProviderError] are not part of the excerpt: what
    [errors.Unwrap] gives on a [ProviderError] value (the result of its
    [Unwrap] method if it has one, nil otherwise) and the text of its
    [Error] method are parameters. *)
Variable providerUnwrap : option goerror -> ErrorCode -> option goerror.
Variable providerText : option goerror -> ErrorCode -> string.

(** [err.Error()] *)
Definition Error (err : goerror) : string :=
  match err with
  | errorString text => text
  | wrapError text _ => text
  | ProviderError e code => providerText e code
  end.

(** [errors.Unwrap] of the standard library. *)
Definition errors_Unwrap (err : option goerror) : option goerror :=
  match err with
  | None => None
  | Some (errorString _) => None
  | Some (wrapError _ inner) => Some inner
  | Some (ProviderError e code) => providerUnwrap e code
  end.

Definition Unwrap (err : option goerror) : option goerror :=
  match err with
  | Some (ProviderError e _) => errors_Unwrap e
  | _ => errors_Unwrap err
  end.

Definition WrapIntoProviderError (err : option goerror) (errorCode : ErrorCode)
           (msg : string) : goerror :=
  match err with
  | None => ProviderError (Some (errorString msg)) errorCode
  | Some e =>
      ProviderError
        (Some (wrapError (msg ++ ": [" ++ Error e ++ "]")%string e)) errorCode
  end.

End ProviderErrorMethods.

End CustomErrors.

(** ** internal/services/dlp_policy/resource_dlp_policy.go *)

Module DlpPolicy.

Record ActionRule : Type := mkActionRule {
  ActionId : string;
  Behavior : string
}.

Record Connector : Type := mkConnector {
  ConnectorId : string;
  DefaultActionRuleBehavior : string;
  ActionRules : list ActionRule
}.

Inductive Severity : Type :=
| SeverityError
| SeverityWarning.

(** A diagnostic of the plugin framework; [AttributePath] is [None]
    for a diagnostic without a path and holds the text of the path of
    an attribute diagnostic ([path.Empty()] is the empty text). *)
Record Diagnostic : Type := mkDiagnostic {
  DiagSeverity : Severity;
  AttributePath : option string;
  Summary : string;
  Detail : string
}.

Definition Severity_eqb (a b : Severity) : bool :=
  match a, b with
  | SeverityError, SeverityError => true
  | SeverityWarning, SeverityWarning => true
  | _, _ => false
  end.

Definition Path_eqb (a b : option string) : bool :=
  match a, b with
  | None, None => true
  | Some p, Some q => String.eqb p q
  | _, _ => false
  end.

(** [Equal] of the framework's diagnostics. *)
Definition Diagnostic_eqb (a b : Diagnostic) : bool :=
  Severity_eqb (DiagSeverity a) (DiagSeverity b)
  && Path_eqb (AttributePath a) (AttributePath b)
  && String.eqb (Summary a) (Summary b)
  && String.eqb (Detail a) (Detail b).

(** [Diagnostics.Contains] and [Diagnostics.Append] of the
    framework: a diagnostic equal to one already present is not added
    again. *)
Definition Contains (diags : list Diagnostic) (d : Diagnostic) : bool :=
  existsb (Diagnostic_eqb d) diags.

Definition Append (diags : list Diagnostic) (d : Diagnostic) : list Diagnostic :=
  if Contains diags d then diags else (diags ++ [d])%list.

(** [Diagnostics.AddAttributeError(path, summary, detail)] *)
Definition AddAttributeError (diags : list Diagnostic) (path summary detail : string)
  : list Diagnostic :=
  Append diags (mkDiagnostic SeverityError (Some path) summary detail).

(** The diagnostic the loop of [ValidateConfig] adds, at [path.Empty()]. *)
Definition actionRuleError : Diagnostic :=
  mkDiagnostic SeverityError (Some EmptyString)
    "Incorrect attribute Configuration"
    "Expected 'default_action_rule_behavior' to be empty if 'action_rules' are empty.".

(** The condition of the [if] in the loop of [ValidateConfig]. *)
Definition rejected (c : Connector) : bool :=
  (negb (String.eqb (DefaultActionRuleBehavior c) "")
   && (List.length (ActionRules c) =? 0)%nat)
  || (String.eqb (DefaultActionRuleBehavior c) ""
      && (0 <? List.length (ActionRules c))%nat).

(** [for _, c := range connectors { ... }] of [ValidateConfig], on the
    diagnostics of the response so far. *)
Fixpoint ValidateConfig (connectors : list Connector) (diags : list Diagnostic)
  : list Diagnostic :=
  match connectors with
  | [] => diags
  | c :: rest =>
      if rejected c
      then ValidateConfig rest
             (AddAttributeError diags EmptyString
                "Incorrect attribute Configuration"
                "Expected 'default_action_rule_behavior' to be empty if 'action_rules' are empty.")
      else ValidateConfig rest diags
  end.

(** Connectors for the examples: two that break the rule and two that
    keep it. *)
Definition behaviourWithoutRules : Connector :=
  mkConnector "shared_sql" "Allow" [].

Definition rulesWithoutBehaviour : Connector :=
  mkConnector "shared_sharepointonline" ""
    [mkActionRule "DeleteItem" "Block"].

Definition behaviourWithRules : Connector :=
  mkConnector "shared_sql" "Allow" [mkActionRule "DeleteItem_V2" "Block"].

Definition neitherBehaviourNorRules : Connector :=
  mkConnector "shared_office365" "" [].

End DlpPolicy.

(** ** models_application_user.go *)

Module UserModels.

Import GoStrings.

(** [types.String] and [types.Bool] of the plugin framework. *)
Inductive tfString : Type :=
| StringNull
| StringUnknown
| StringValue (s : string).

Inductive tfBool : Type :=
| BoolNull
| BoolUnknown
| BoolValue (b : bool).

Record ApplicationUserResourceModel : Type := mkApplicationUserResourceModel {
  Id : tfString;
  ApplicationName : tfString;
  EnvironmentId : tfString;
  BusinessUnitId : tfString;
  SecurityRoles : slice string;
  DisableDelete : tfBool
}.

Definition SecurityRolesArray (u : ApplicationUser.ApplicationUserDto)
  : slice string :=
  if (List.length (ApplicationUser.SecurityRoles u) =? 0)%nat then Some []
  else
    fold_left (fun roles role => append roles (ApplicationUser.RoleId role))
      (ApplicationUser.SecurityRoles u) None.

Definition ConvertFromApplicationUserDto
           (applicationuserDto : ApplicationUser.ApplicationUserDto)
           (disableDelete : bool) : ApplicationUserResourceModel :=
  mkApplicationUserResourceModel
    (StringValue (ApplicationUser.Id applicationuserDto))
    (StringValue (ApplicationUser.ApplicationName applicationuserDto))
    StringNull
    (StringValue (ApplicationUser.BusinessUnitId applicationuserDto))
    (SecurityRolesArray applicationuserDto)
    (BoolValue disableDelete).

End UserModels.

(** ** api_application_user.go: the calls besides the provisioning loop *)

Module UserClient.

Import GoStrings.

Record LinkedEnvironmentIdMetadataDto : Type := mkLinkedEnvironmentIdMetadataDto {
  InstanceURL : string
}.

Record EnvironmentIdPropertiesDto : Type := mkEnvironmentIdPropertiesDto {
  LinkedEnvironmentMetadata : LinkedEnvironmentIdMetadataDto
}.

Record EnvironmentIdDto : Type := mkEnvironmentIdDto {
  EnvId : string;
  EnvName : string;
  Properties : EnvironmentIdPropertiesDto
}.

(** The fields of [url.URL] the client sets.  The query is kept as the
    [url.Values] it is encoded from, in the order of the [Add] calls;
    the text produced by [String()] and [Encode()] is not modelled. *)
Record URL : Type := mkURL {
  Scheme : string;
  Host : string;
  Path : string;
  RawQuery : list (string * string)
}.

Inductive Body : Type :=
| NoBody
| MapBody (fields : list (string * string))
| UserBody (u : ApplicationUser.ApplicationUserDto).

(** One call of [client.Api.Execute]. *)
Record Call : Type := mkCall {
  Method : string;
  Url : URL;
  CallBody : Body;
  Acceptable : list Z
}.

(** What [Execute] leaves in [responseObj]. *)
Inductive Payload : Type :=
| Nothing
| Environment (env : EnvironmentIdDto)
| User (u : ApplicationUser.ApplicationUserDto)
| Users (l : list ApplicationUser.ApplicationUserDto)
| Roles (l : list ApplicationUser.SecurityRoleDto).

Definition emptyEnvironment : EnvironmentIdDto :=
  mkEnvironmentIdDto "" "" (mkEnvironmentIdPropertiesDto
                             (mkLinkedEnvironmentIdMetadataDto "")).

Definition emptyUser : ApplicationUser.ApplicationUserDto :=
  ApplicationUser.mkApplicationUserDto "" "" "" [].

(** The value of the DTO that was passed as [responseObj]: it starts
    zeroed and holds what the response had for it. *)
Definition asEnvironment (p : Payload) : EnvironmentIdDto :=
  match p with Environment env => env | _ => emptyEnvironment end.

Definition asUser (p : Payload) : ApplicationUser.ApplicationUserDto :=
  match p with User u => u | _ => emptyUser end.

Definition asUsers (p : Payload) : list ApplicationUser.ApplicationUserDto :=
  match p with Users l => l | _ => [] end.

Definition asRoles (p : Payload) : list ApplicationUser.SecurityRoleDto :=
  match p with Roles l => l | _ => [] end.

(** The API behind [client.Api]: the error and the payload [Execute]
    gives for a call, given the calls made before it; and the BAPI host
    of the configuration. *)
Record Client : Type := mkClient {
  api : list Call -> Call -> error * Payload;
  BapiUrl : string
}.

(** [client.Api.Execute(...)]: the call is made and recorded. *)
Definition Execute (client : Client) (log : list Call) (c : Call)
  : error * Payload * list Call :=
  let '(err, p) := api client log c in (err, p, (log ++ [c])%list).

Definition environmentCall (client : Client) (environmentId : string) : Call :=
  mkCall "GET"
    (mkURL "https" (BapiUrl client)
       ("/providers/Microsoft.BusinessAppPlatform/scopes/admin/environments/"
        ++ environmentId)%string
       [("$expand", "permissions,properties.capacity,properties/billingPolicy");
        ("api-version", "2023-06-01")])
    NoBody [StatusOK].

Definition getEnvironment (client : Client) (environmentId : string)
           (log : list Call) : option EnvironmentIdDto * error * list Call :=
  let '(err, p, log) := Execute client log (environmentCall client environmentId) in
  match err with
  | Some e => (None, Some e, log)
  | None => (Some (asEnvironment p), None, log)
  end.

Definition GetEnvironmentUrlById (client : Client) (environmentId : string)
           (log : list Call) : string * error * list Call :=
  let '(env, err, log) := getEnvironment client environmentId log in
  match err, env with
  | Some e, _ => (EmptyString, Some e, log)
  | None, Some env =>
      (TrimSuffix (InstanceURL (LinkedEnvironmentMetadata (Properties env))) "/",
       None, log)
  | None, None => (EmptyString, None, log)
  end.

(** [strings.TrimPrefix(environmentUrl, "https://")], the [Host] of
    every Dataverse URL. *)
Definition dataverseHost (environmentUrl : string) : string :=
  TrimPrefix environmentUrl "https://".

Definition usersCall (environmentUrl : string) : Call :=
  mkCall "GET"
    (mkURL "https" (dataverseHost environmentUrl) "/api/data/v9.2/systemusers" [])
    NoBody [StatusOK].

Definition GetApplicationUsers (client : Client) (environmentId : string)
           (log : list Call)
  : list ApplicationUser.ApplicationUserDto * error * list Call :=
  let '(environmentUrl, err, log) := GetEnvironmentUrlById client environmentId log in
  match err with
  | Some e => ([], Some e, log)
  | None =>
      let '(err, p, log) := Execute client log (usersCall environmentUrl) in
      match err with
      | Some e => ([], Some e, log)
      | None => (asUsers p, None, log)
      end
  end.

Definition userPath (systemApplicationUserId : string) : string :=
  ("/api/data/v9.2/systemusers(" ++ systemApplicationUserId ++ ")")%string.

Definition userCall (environmentUrl systemApplicationUserId : string) : Call :=
  mkCall "GET"
    (mkURL "https" (dataverseHost environmentUrl) (userPath systemApplicationUserId)
       [("$expand",
         "systemuserroles_association($select=roleid,name,ismanaged,_businessunitid_value)")])
    NoBody [StatusOK].

Definition GetApplicationUserBySystemApplicationUserId
           (client : Client) (environmentId systemApplicationUserId : string)
           (log : list Call)
  : option ApplicationUser.ApplicationUserDto * error * list Call :=
  let '(environmentUrl, err, log) := GetEnvironmentUrlById client environmentId log in
  match err with
  | Some e => (None, Some e, log)
  | None =>
      let '(err, p, log) :=
        Execute client log (userCall environmentUrl systemApplicationUserId) in
      match err with
      | Some e => (None, Some e, log)
      | None => (Some (asUser p), None, log)
      end
  end.

Definition updateCall (environmentUrl systemApplicationUserId : string)
           (applicationuserUpdate : ApplicationUser.ApplicationUserDto) : Call :=
  mkCall "PATCH"
    (mkURL "https" (dataverseHost environmentUrl) (userPath systemApplicationUserId) [])
    (UserBody applicationuserUpdate) [StatusOK].

Definition UpdateApplicationUser
           (client : Client) (environmentId systemApplicationUserId : string)
           (applicationuserUpdate : ApplicationUser.ApplicationUserDto)
           (log : list Call)
  : option ApplicationUser.ApplicationUserDto * error * list Call :=
  let '(environmentUrl, err, log) := GetEnvironmentUrlById client environmentId log in
  match err with
  | Some e => (None, Some e, log)
  | None =>
      let '(err, _, log) :=
        Execute client log
          (updateCall environmentUrl systemApplicationUserId applicationuserUpdate) in
      match err with
      | Some e => (None, Some e, log)
      | None =>
          GetApplicationUserBySystemApplicationUserId
            client environmentId systemApplicationUserId log
      end
  end.

Definition deleteCall (environmentUrl systemApplicationUserId : string) : Call :=
  mkCall "DELETE"
    (mkURL "https" (dataverseHost environmentUrl) (userPath systemApplicationUserId) [])
    NoBody [StatusNoContent].

Definition DeleteApplicationUser
           (client : Client) (environmentId systemApplicationUserId : string)
           (log : list Call) : error * list Call :=
  let '(environmentUrl, err, log) := GetEnvironmentUrlById client environmentId log in
  match err with
  | Some e => (Some e, log)
  | None =>
      let '(err, _, log) :=
        Execute client log (deleteCall environmentUrl systemApplicationUserId) in
      (err, log)
  end.

Definition rolesRefPath (systemApplicationUserId : string) : string :=
  ("/api/data/v9.2/systemusers(" ++ systemApplicationUserId
   ++ ")/systemuserroles_association/$ref")%string.

(** [fmt.Sprintf("%s/api/data/v9.2/roles(%s)", environmentUrl, roleId)] *)
Definition roleUri (environmentUrl roleId : string) : string :=
  (environmentUrl ++ "/api/data/v9.2/roles(" ++ roleId ++ ")")%string.

Definition removeRoleCall (environmentUrl systemApplicationUserId roleId : string)
  : Call :=
  mkCall "DELETE"
    (mkURL "https" (dataverseHost environmentUrl)
       (rolesRefPath systemApplicationUserId)
       [("$id", roleUri environmentUrl roleId)])
    NoBody [StatusNoContent].

Definition addRoleCall (environmentUrl systemApplicationUserId roleId : string)
  : Call :=
  mkCall "POST"
    (mkURL "https" (dataverseHost environmentUrl)
       (rolesRefPath systemApplicationUserId) [])
    (MapBody [("@odata.id", roleUri environmentUrl roleId)]) [StatusNoContent].

(** [for _, roleId := range securityRolesIds { ... }] of
    [RemoveSecurityRoles] and of [AddSecurityRoles]: one call per role,
    left at the first error. *)
Fixpoint forEachRole (client : Client) (call : string -> Call)
         (securityRolesIds : list string) (log : list Call) : error * list Call :=
  match securityRolesIds with
  | [] => (None, log)
  | roleId :: rest =>
      let '(err, _, log) := Execute client log (call roleId) in
      match err with
      | Some e => (Some e, log)
      | None => forEachRole client call rest log
      end
  end.

Definition RemoveSecurityRoles
           (client : Client) (environmentId systemApplicationUserId : string)
           (securityRolesIds : list string) (log : list Call)
  : option ApplicationUser.ApplicationUserDto * error * list Call :=
  let '(environmentUrl, err, log) := GetEnvironmentUrlById client environmentId log in
  match err with
  | Some e => (None, Some e, log)
  | None =>
      let '(err, log) :=
        forEachRole client (removeRoleCall environmentUrl systemApplicationUserId)
          securityRolesIds log in
      match err with
      | Some e => (None, Some e, log)
      | None =>
          GetApplicationUserBySystemApplicationUserId
            client environmentId systemApplicationUserId log
      end
  end.

Definition AddSecurityRoles
           (client : Client) (environmentId systemApplicationUserId : string)
           (securityRolesIds : list string) (log : list Call)
  : option ApplicationUser.ApplicationUserDto * error * list Call :=
  let '(environmentUrl, err, log) := GetEnvironmentUrlById client environmentId log in
  match err with
  | Some e => (None, Some e, log)
  | None =>
      let '(err, log) :=
        forEachRole client (addRoleCall environmentUrl systemApplicationUserId)
          securityRolesIds log in
      match err with
      | Some e => (None, Some e, log)
      | None =>
          GetApplicationUserBySystemApplicationUserId
            client environmentId systemApplicationUserId log
      end
  end.

Definition rolesCall (environmentUrl businessUnitId : string) : Call :=
  mkCall "GET"
    (mkURL "https" (dataverseHost environmentUrl) "/api/data/v9.2/roles"
       (if String.eqb businessUnitId "" then []
        else [("$filter", ("_businessunitid_value eq " ++ businessUnitId)%string)]))
    NoBody [StatusOK].

Definition GetSecurityRoles (client : Client) (environmentId businessUnitId : string)
           (log : list Call)
  : list ApplicationUser.SecurityRoleDto * error * list Call :=
  let '(environmentUrl, err, log) := GetEnvironmentUrlById client environmentId log in
  match err with
  | Some e => ([], Some e, log)
  | None =>
      let '(err, p, log) := Execute client log (rolesCall environmentUrl businessUnitId) in
      match err with
      | Some e => ([], Some e, log)
      | None => (asRoles p, None, log)
      end
  end.

(** An API that accepts every call and reports the same environment
    and the same user whenever asked. *)
Definition steadyApi (env : EnvironmentIdDto) (u : ApplicationUser.ApplicationUserDto)
  : list Call -> Call -> error * Payload :=
  fun _ c =>
    if String.eqb (Method c) "GET"
    then if String.eqb (Host (Url c)) "api.bap.microsoft.com"
         then (None, Environment env)
         else (None, User u)
    else (None, Nothing).

(** An API on which the calls for one role fail and the environment
    lookup works. *)
Definition refusingRole (env : EnvironmentIdDto) (badRole : string)
  : list Call -> Call -> error * Payload :=
  fun _ c =>
    match CallBody c with
    | MapBody [(_, uri)] =>
        if String.eqb uri (roleUri "https://org.crm.dynamics.com" badRole)
        then (Some "role not found", Nothing)
        else (None, Nothing)
    | _ => (None, Environment env)
    end.

(** An API on which the removal of one role fails and everything else
    works. *)
Definition refusingRemoval (env : EnvironmentIdDto) (badRole : string)
  : list Call -> Call -> error * Payload :=
  fun _ c =>
    match RawQuery (Url c) with
    | [(key, uri)] =>
        if String.eqb key "$id"
           && String.eqb uri (roleUri "https://org.crm.dynamics.com" badRole)
        then (Some "role is not assigned", Nothing)
        else (None, Nothing)
    | _ => (None, Environment env)
    end.

(** An API on which nothing works. *)
Definition brokenApi : list Call -> Call -> error * Payload :=
  fun _ _ => (Some "service unavailable", Nothing).

Definition orgEnvironment : EnvironmentIdDto :=
  mkEnvironmentIdDto "env-1" "dev"
    (mkEnvironmentIdPropertiesDto
       (mkLinkedEnvironmentIdMetadataDto "https://org.crm.dynamics.com/")).

Definition someUser : ApplicationUser.ApplicationUserDto :=
  ApplicationUser.mkApplicationUserDto "user-1" "app" "bu-1"
    [ApplicationUser.mkSecurityRoleDto "role-a" "Reader" true "bu-1";
     ApplicationUser.mkSecurityRoleDto "role-b" "Writer" false "bu-1"].

Definition refusingClient : Client :=
  mkClient (refusingRole orgEnvironment "role-b") "api.bap.microsoft.com".

Definition refusingRemovalClient : Client :=
  mkClient (refusingRemoval orgEnvironment "role-b") "api.bap.microsoft.com".

Definition steadyClient : Client :=
  mkClient (steadyApi orgEnvironment someUser) "api.bap.microsoft.com".

Definition brokenClient : Client :=
  mkClient brokenApi "api.bap.microsoft.com".

End UserClient.

(** ** Reading the steps of the provisioning loop *)

Module ProvisioningTrace.

Import ApplicationUser.

(** The error says that the licence is not assigned yet. *)
Definition notLicensed (err : error) : bool :=
  match err with
  | None => false
  | Some text => Contains text "userNotLicensed"
  end.

(** The steps follow the loop from the instant [now]: each call of
    [Execute] starts when the step before it ended; a call followed by
    anything returned a not-licensed error and is followed by a sleep
    that starts at its return and lasts ten seconds; a call that ends
    the steps returned something else. *)
Fixpoint followsLoop (now : Z) (tr : list Step) : bool :=
  match tr with
  | [] => true
  | StExecute start stop err :: rest =>
      (start =? now)
      && match rest with
         | [] => negb (notLicensed err)
         | StSleep s1 s2 :: rest' =>
             notLicensed err && (s1 =? stop) && (s2 =? stop + 10 * Second)
             && followsLoop s2 rest'
         | StExecute _ _ _ :: _ => false
         end
  | StSleep _ _ :: _ => false
  end.

(** The error of the last call of [Execute] among the steps. *)
Fixpoint lastError (tr : list Step) : option error :=
  match tr with
  | [] => None
  | StExecute _ _ err :: rest =>
      match lastError rest with
      | Some e => Some e
      | None => Some err
      end
  | StSleep _ _ :: rest => lastError rest
  end.

(** The instant at which the last step ends, [now] when there is none. *)
Fixpoint endTime (now : Z) (tr : list Step) : Z :=
  match tr with
  | [] => now
  | StExecute _ stop _ :: rest => endTime stop rest
  | StSleep _ stop :: rest => endTime stop rest
  end.

(** A context that is never done. *)
Definition neverDone : Context := mkContext None EmptyString.

Fixpoint sleepCount (tr : list Step) : nat :=
  match tr with
  | [] => O
  | StSleep _ _ :: rest => S (sleepCount rest)
  | StExecute _ _ _ :: rest => sleepCount rest
  end.

End ProvisioningTrace.

(** ** Concrete servers and inputs *)

(** A server that refuses with 403, one that answers 409 and then 200,
    one that answers 404, and the website of the provider's acceptance
    test. *)
Definition forbidden_env : Api.Env :=
  Api.mkEnv (Api.constant_server (Api.plain StatusForbidden "denied")) (fun _ => 0).

Definition conflict_env : Api.Env :=
  Api.mkEnv (Api.scripted_server
               [Api.plain StatusConflict "busy"] (Api.plain StatusOK "done"))
            (fun _ => 0).

Definition notFound_env : Api.Env :=
  Api.mkEnv (Api.constant_server (Api.plain StatusNotFound "no such environment"))
            (fun _ => 0).

Definition someWebsite : PowerPages.WebsiteCreateDto :=
  PowerPages.mkWebsiteCreateDto "0eaf704f-8c3a-e49f-b64d-69e85d0a5b52"
    "my power page1" 1031 "mwpage1" "DefaultPortalTemplate" "".

(** * Properties *)

(** ** The retry loop of [Client.Execute] *)

Section ExecuteFacts.

Import Api.

Variable env : Env.
Variable req : Request.
Variable acceptable : list Z.

Lemma retryable_codes :
  retryableStatusCodes = [401; 429; 500; 502; 503; 504].
Proof. reflexivity. Qed.

Lemma array_Contains_In (l : list Z) (x : Z) :
  array_Contains l x = true <-> In x l.
Proof.
  unfold array_Contains. rewrite existsb_exists. split.
  - intros [y [Hin Heq]]. apply Z.eqb_eq in Heq. now subst.
  - intros Hin. exists x. split; [assumption | apply Z.eqb_refl].
Qed.

Lemma Execute_loop_acceptable (fuel k : nat) :
  isAcceptable acceptable (server env req k) = true ->
  Execute_loop (S fuel) env req acceptable k =
    ([EvRequest k (server env req k)], Returned (server env req k) None).
Proof. intros H. cbn [Execute_loop]. now rewrite H. Qed.

Lemma Execute_loop_fatal (fuel k : nat) :
  isAcceptable acceptable (server env req k) = false ->
  array_Contains retryableStatusCodes (StatusCode (server env req k)) = false ->
  Execute_loop (S fuel) env req acceptable k =
    ([EvRequest k (server env req k)],
     Returned (server env req k)
       (Some (UnexpectedHttpStatusCodeError acceptable
                (StatusCode (server env req k)) (Status (server env req k))
                (BodyAsBytes (server env req k))))).
Proof. intros Ha Hr. cbn [Execute_loop]. now rewrite Ha, Hr. Qed.

Lemma Execute_loop_retry (fuel k : nat) :
  isAcceptable acceptable (server env req k) = false ->
  array_Contains retryableStatusCodes (StatusCode (server env req k)) = true ->
  Execute_loop (S fuel) env req acceptable k =
    (EvRequest k (server env req k)
       :: EvSleep (retryAfter (server env req k) (rand env k))
       :: fst (Execute_loop fuel env req acceptable (S k)),
     snd (Execute_loop fuel env req acceptable (S k))).
Proof.
  intros Ha Hr. cbn [Execute_loop]. rewrite Ha, Hr. cbn [negb].
  now destruct (Execute_loop fuel env req acceptable (S k)).
Qed.

(** The three ways an iteration can go. *)
Lemma Execute_loop_cases (fuel k : nat) :
  let resp := server env req k in
  (isAcceptable acceptable resp = true)
  \/ (isAcceptable acceptable resp = false
      /\ array_Contains retryableStatusCodes (StatusCode resp) = false)
  \/ (isAcceptable acceptable resp = false
      /\ array_Contains retryableStatusCodes (StatusCode resp) = true).
Proof.
  intros resp.
  destruct (isAcceptable acceptable resp); [now left | right].
  destruct (array_Contains retryableStatusCodes (StatusCode resp));
    [right | left]; now split.
Qed.

(** A request other than the last one of a run got a retryable,
    unacceptable answer. *)
Lemma Execute_loop_retried (fuel : nat) :
  forall k j,
    (S j < requests (fst (Execute_loop fuel env req acceptable k)))%nat ->
    isAcceptable acceptable (server env req (k + j)) = false
    /\ array_Contains retryableStatusCodes
         (StatusCode (server env req (k + j))) = true.
Proof.
  induction fuel as [| fuel IH]; intros k j Hlt.
  - simpl in Hlt. lia.
  - destruct (Execute_loop_cases fuel k) as [Ha | [[Ha Hr] | [Ha Hr]]].
    + rewrite Execute_loop_acceptable in Hlt by assumption. simpl in Hlt. lia.
    + rewrite Execute_loop_fatal in Hlt by assumption. simpl in Hlt. lia.
    + rewrite Execute_loop_retry in Hlt by assumption. simpl in Hlt.
      destruct j as [| j].
      * rewrite Nat.add_0_r. now split.
      * replace (k + S j)%nat with (S k + j)%nat by lia.
        apply IH. lia.
Qed.

(** [Execute] never forces a token refresh. *)
Lemma Execute_loop_no_refresh (fuel : nat) :
  forall k, refreshes (fst (Execute_loop fuel env req acceptable k)) = O.
Proof.
  induction fuel as [| fuel IH]; intros k; [reflexivity |].
  destruct (Execute_loop_cases fuel k) as [Ha | [[Ha Hr] | [Ha Hr]]].
  - now rewrite Execute_loop_acceptable.
  - now rewrite Execute_loop_fatal.
  - rewrite Execute_loop_retry by assumption. simpl. apply IH.
Qed.

End ExecuteFacts.

Section ExecuteOnStubbornServers.

Import Api.

Variable resp : Response.
Variable draws : nat -> Z.
Variable req : Request.
Variable acceptable : list Z.

Hypothesis not_acceptable : isAcceptable acceptable resp = false.
Hypothesis retryable :
  array_Contains retryableStatusCodes (StatusCode resp) = true.

Let env : Env := mkEnv (constant_server resp) draws.

(** Against a server that keeps giving the same retryable answer the
    loop is still running after any number of attempts. *)
Lemma Execute_loop_stubborn (fuel : nat) :
  forall k,
    snd (Execute_loop fuel env req acceptable k) = StillRunning
    /\ requests (fst (Execute_loop fuel env req acceptable k)) = fuel
    /\ sleeps (fst (Execute_loop fuel env req acceptable k)) =
         map (fun i => retryAfter resp (draws i)) (seq k fuel).
Proof.
  induction fuel as [| fuel IH]; intros k.
  - now repeat split.
  - rewrite Execute_loop_retry by assumption.
    destruct (IH (S k)) as [Hout [Hreq Hsl]].
    cbn [fst snd requests sleeps seq map].
    rewrite Hout, Hreq, Hsl. now repeat split.
Qed.

End ExecuteOnStubbornServers.

Section ExecuteOn401.

Import Api.

Variable draws : nat -> Z.
Variable req : Request.
Variable acceptable : list Z.
Variable resp : Response.

Hypothesis is401 : StatusCode resp = StatusUnauthorized.
Hypothesis not_acceptable : isAcceptable acceptable resp = false.

Let env : Env := mkEnv (constant_server resp) draws.

Lemma retryable401 :
  array_Contains retryableStatusCodes (StatusCode resp) = true.
Proof. rewrite is401. reflexivity. Qed.

(** Every request but the first one of a run against a server that
    always says 401 directly follows a 401. *)
Lemma Execute_loop_401_retries (fuel : nat) :
  forall k seen,
    retries_after_401 seen (fst (Execute_loop fuel env req acceptable k)) =
      if seen then fuel else Nat.pred fuel.
Proof.
  induction fuel as [| fuel IH]; intros k seen.
  - now destruct seen.
  - rewrite Execute_loop_retry by (assumption || apply retryable401).
    cbn [fst retries_after_401].
    replace (StatusCode (server env req k) =? StatusUnauthorized) with true
      by (symmetry; apply Z.eqb_eq; exact is401).
    rewrite IH. now destruct seen.
Qed.

End ExecuteOn401.

(** C1: the retry loop of [Client.Execute] has no cap on its attempts.
    Against a server that answers every request with 503 the loop has
    made [n] requests after [n] iterations and has still not returned,
    for every [n]. *)
Theorem Execute_has_no_attempt_cap :
  forall (draws : nat -> Z) (req : Api.Request) (n : nat),
    let env :=
      Api.mkEnv (Api.constant_server (Api.plain StatusServiceUnavailable "")) draws in
    snd (Api.Execute n env req [StatusOK]) = Api.StillRunning
    /\ Api.requests (fst (Api.Execute n env req [StatusOK])) = n.
Proof.
  intros draws req n env. unfold Api.Execute.
  destruct (Execute_loop_stubborn (Api.plain StatusServiceUnavailable "")
              draws req [StatusOK] eq_refl eq_refl n 0%nat) as [Hout [Hreq _]].
  now split.
Qed.

(** C2: [Execute] submits a request again only after a response whose
    status is one of 401, 429, 500, 502, 503 and 504 (and is not
    acceptable to the caller); on a response that is neither acceptable
    nor in that set it returns at once, with the response and an
    unexpected-status error, without a further request. *)
Theorem Execute_retries_only_retryable_status :
  forall (env : Api.Env) (req : Api.Request) (acceptable : list Z),
    (forall fuel j,
        (S j < Api.requests (fst (Api.Execute fuel env req acceptable)))%nat ->
        In (Api.StatusCode (Api.server env req j)) [401; 429; 500; 502; 503; 504]
        /\ ~ In (Api.StatusCode (Api.server env req j)) acceptable)
    /\ (forall fuel k,
           let resp := Api.server env req k in
           ~ In (Api.StatusCode resp) [401; 429; 500; 502; 503; 504] ->
           ~ In (Api.StatusCode resp) acceptable ->
           Api.Execute_loop (S fuel) env req acceptable k =
             ([Api.EvRequest k resp],
              Api.Returned resp
                (Some (Api.UnexpectedHttpStatusCodeError acceptable
                         (Api.StatusCode resp) (Api.Status resp)
                         (Api.BodyAsBytes resp))))).
Proof.
  intros env req acceptable. split.
  - intros fuel j Hlt.
    destruct (Execute_loop_retried env req acceptable fuel 0 j Hlt) as [Ha Hr].
    cbn [Nat.add] in Ha, Hr. split.
    + now apply array_Contains_In in Hr.
    + intros Hin. apply array_Contains_In in Hin.
      unfold Api.isAcceptable in Ha. congruence.
  - intros fuel k resp Hr Ha.
    apply Execute_loop_fatal.
    + unfold Api.isAcceptable.
      destruct (array_Contains acceptable (Api.StatusCode (Api.server env req k))) eqn:E;
        [| reflexivity].
      apply array_Contains_In in E. contradiction.
    + destruct (array_Contains Api.retryableStatusCodes
                  (Api.StatusCode (Api.server env req k))) eqn:E; [| reflexivity].
      apply array_Contains_In in E. contradiction.
Qed.

Lemma Execute_retries_only_retryable_status_witness :
  Api.Execute 7 forbidden_env Api.anyRequest [StatusOK] =
    ([Api.EvRequest 0 (Api.plain StatusForbidden "denied")],
     Api.Returned (Api.plain StatusForbidden "denied")
       (Some (Api.UnexpectedHttpStatusCodeError [StatusOK] StatusForbidden "" "denied"))).
Proof.
  apply (proj2 (Execute_retries_only_retryable_status
                  forbidden_env Api.anyRequest [StatusOK]) 6%nat 0%nat).
  - simpl. unfold StatusForbidden. lia.
  - simpl. unfold StatusForbidden, StatusOK. lia.
Defined.

(** C3: when the response to the first request has a status in the
    caller's acceptable set, whatever that status is, [Execute] returns
    that very response (and so its body) with a nil error after exactly
    one request and without sleeping. *)
Theorem Execute_acceptable_single_call :
  forall (env : Api.Env) (req : Api.Request) (acceptable : list Z) (fuel : nat),
    In (Api.StatusCode (Api.server env req 0)) acceptable ->
    let '(tr, out) := Api.Execute (S fuel) env req acceptable in
    out = Api.Returned (Api.server env req 0) None
    /\ Api.requests tr = 1%nat
    /\ Api.sleeps tr = [].
Proof.
  intros env req acceptable fuel Hin.
  unfold Api.Execute. rewrite Execute_loop_acceptable.
  - now repeat split.
  - unfold Api.isAcceptable. now apply array_Contains_In.
Qed.

Lemma Execute_acceptable_single_call_witness :
  let '(tr, out) :=
    Api.Execute 3 conflict_env Api.anyRequest [StatusOK; StatusConflict] in
  out = Api.Returned (Api.plain StatusConflict "busy") None
  /\ Api.requests tr = 1%nat
  /\ Api.sleeps tr = [].
Proof.
  apply (Execute_acceptable_single_call
           conflict_env Api.anyRequest [StatusOK; StatusConflict] 2).
  simpl. right. now left.
Defined.

(** C4: [Execute] treats 401 like any other retryable status.  After a
    401 it sleeps and submits the request again without a forced token
    refresh in between, and against a server that keeps answering 401
    it does so again and again: [n] requests follow a 401 in a run of
    [n + 1] iterations. *)
Theorem Execute_resubmits_after_401_without_refresh :
  forall (draws : nat -> Z) (req : Api.Request),
    let r401 := Api.plain StatusUnauthorized "" in
    let r200 := Api.plain StatusOK "ok" in
    let once := Api.mkEnv (Api.scripted_server [r401] r200) draws in
    let always := Api.mkEnv (Api.constant_server r401) draws in
    Api.Execute 2 once req [StatusOK] =
      ([Api.EvRequest 0 r401; Api.EvSleep (Api.DefaultRetryAfter (draws 0%nat));
        Api.EvRequest 1 r200],
       Api.Returned r200 None)
    /\ Api.refresh_precedes_401_retry false
         (fst (Api.Execute 2 once req [StatusOK])) = false
    /\ forall n,
        Api.retries_after_401 false
          (fst (Api.Execute (S n) always req [StatusOK])) = n
        /\ Api.refreshes (fst (Api.Execute (S n) always req [StatusOK])) = 0%nat.
Proof.
  intros draws req r401 r200 once always. repeat split.
  - unfold Api.Execute.
    apply (Execute_loop_401_retries draws req [StatusOK] r401 eq_refl eq_refl
             (S n) 0%nat false).
  - apply Execute_loop_no_refresh.
Qed.

(** C5: the delay [Execute] uses when the response has no Retry-After
    header does not depend on the attempt number.  It is
    [DefaultRetryAfter], between 10 and 19 seconds whatever the random
    draw; with equal draws all the sleeps of a run are equal, while the
    specification's exponential formula gives a longer delay at attempt
    1 than at attempt 0 for every positive base below the cap. *)
Theorem DefaultRetryAfter_ignores_attempt :
  forall (raw : Z) (req : Api.Request) (n : nat),
    let env :=
      Api.mkEnv (Api.constant_server (Api.plain StatusServiceUnavailable ""))
                (fun _ => raw) in
    Api.sleeps (fst (Api.Execute n env req [StatusOK])) =
      repeat (Api.DefaultRetryAfter raw) n
    /\ 10 * Second <= Api.DefaultRetryAfter raw <= 19 * Second
    /\ forall base maxDelay jitter,
        0 < base -> 2 * base <= maxDelay -> 0 <= jitter ->
        Api.exponentialBackoff base maxDelay 0 jitter
        < Api.exponentialBackoff base maxDelay 1 jitter.
Proof.
  intros raw req n env. split; [| split].
  - unfold Api.Execute.
    destruct (Execute_loop_stubborn (Api.plain StatusServiceUnavailable "")
                (fun _ => raw) req [StatusOK] eq_refl eq_refl n 0%nat)
      as [_ [_ Hsl]].
    fold env in Hsl. rewrite Hsl. clear Hsl.
    generalize 0%nat. induction n as [| n IH]; intros k; [reflexivity |].
    cbn [seq map repeat]. rewrite IH. reflexivity.
  - unfold Api.DefaultRetryAfter, Intn, Second.
    pose proof (Z.mod_pos_bound raw 10 ltac:(lia)). lia.
  - intros base maxDelay jitter Hb Hm Hj.
    unfold Api.exponentialBackoff.
    change (2 ^ Z.of_nat 0) with 1. change (2 ^ Z.of_nat 1) with 2.
    rewrite Z.min_r by lia. rewrite Z.min_r by lia.
    replace (base * 2 * (1000 + jitter)) with
      (base * 1 * (1000 + jitter) + base * (1000 + jitter)) by lia.
    assert (H1 : 1000 * 1 <= base * (1000 + jitter)) by nia.
    assert (H2 : 1 <= base * (1000 + jitter) / 1000)
      by (apply Z.div_le_lower_bound; lia).
    assert (H3 : (base * 1 * (1000 + jitter)) / 1000 + (base * (1000 + jitter)) / 1000
                 <= (base * 1 * (1000 + jitter) + base * (1000 + jitter)) / 1000).
    { pose proof (Z.div_mod (base * 1 * (1000 + jitter)) 1000 ltac:(lia)).
      pose proof (Z.div_mod (base * (1000 + jitter)) 1000 ltac:(lia)).
      pose proof (Z.mod_pos_bound (base * 1 * (1000 + jitter)) 1000 ltac:(lia)).
      pose proof (Z.mod_pos_bound (base * (1000 + jitter)) 1000 ltac:(lia)).
      apply Z.div_le_lower_bound; lia. }
    lia.
Qed.

Lemma DefaultRetryAfter_ignores_attempt_witness :
  Api.exponentialBackoff Second (60 * Second) 0 0
  < Api.exponentialBackoff Second (60 * Second) 1 0.
Proof.
  apply (proj2 (proj2 (DefaultRetryAfter_ignores_attempt 0 Api.anyRequest 0%nat)));
    unfold Second; lia.
Defined.

(** ** The REST service *)

(** C8: with a nil scope [ExecuteApiRequest] does not return an error
    value: it panics with the message of its [panic] statement, whatever
    the other arguments are. *)
Theorem ExecuteApiRequest_nil_scope_panics :
  forall (fuel : nat) (env : Api.Env) (url method : string) (body : option string)
         (headers : list (string * string)) (expectedStatusCodes : list Z),
    Rest.ExecuteApiRequest fuel env None url method body headers expectedStatusCodes
    = Panic "scope or evironment_id must be provided".
Proof. reflexivity. Qed.

(** With a scope the call is [Execute] on that one scope. *)
Lemma ExecuteApiRequest_with_scope :
  forall fuel env s url method body headers expectedStatusCodes,
    Rest.ExecuteApiRequest fuel env (Some s) url method body headers
      expectedStatusCodes =
    Ret (Api.Execute fuel env
           (Api.mkRequest [s] method url (Rest.addHeaders headers)
              (option_map Api.RawJson body))
           expectedStatusCodes).
Proof. reflexivity. Qed.

(** ** The environment host URI *)

Section HostUri.

Import Helpers.

Lemma slice_from_negative (s : string) (lo : Z) :
  lo < 0 -> slice_from s lo = Panic "runtime error: slice bounds out of range".
Proof.
  intros H. unfold slice_from.
  replace (0 <=? lo) with false by (symmetry; apply Z.leb_gt; exact H).
  reflexivity.
Qed.

Lemma slice_in_range (s : string) (i : Z) :
  0 <= i <= len s ->
  (exists t, slice_from s i = Ret t) /\ (exists t, slice_to s i = Ret t).
Proof.
  intros [H0 H1]. unfold slice_from, slice_to.
  apply Z.leb_le in H0. apply Z.leb_le in H1. rewrite H0, H1. cbn [andb].
  split; eexists; reflexivity.
Qed.

(** An id with at least two bytes besides its hyphens gives a host
    name, whatever those bytes are. *)
Lemma BuildEnvironmentHostUri_returns (environmentId powerPlatformUrl : string) :
  (2 <= String.length (ReplaceAll environmentId "-" ""))%nat ->
  exists host, BuildEnvironmentHostUri environmentId powerPlatformUrl = Ret host.
Proof.
  intros H. unfold BuildEnvironmentHostUri.
  destruct (slice_in_range (ReplaceAll environmentId "-" "")
              (len (ReplaceAll environmentId "-" "") - 2)) as [[r Hr] [e He]].
  - unfold len. lia.
  - rewrite Hr. cbn [bind]. rewrite He. cbn [bind]. eexists. reflexivity.
Qed.

Example BuildEnvironmentHostUri_guid :
  BuildEnvironmentHostUri "00000000-0000-0000-0000-000000000001"
    "api.powerplatform.com"
  = Ret "000000000000000000000000000000.01.environment.api.powerplatform.com".
Proof. reflexivity. Qed.

End HostUri.

(** C10: for every environment id that has fewer than two bytes left
    once its hyphens are removed, [BuildEnvironmentHostUri] panics at
    the slice expression [envId[len(envId)-2:]]: nothing checks the id
    before it is sliced and no error value is produced. *)
Theorem BuildEnvironmentHostUri_short_id_panics :
  forall environmentId powerPlatformUrl : string,
    (String.length (ReplaceAll environmentId "-" "") < 2)%nat ->
    Helpers.BuildEnvironmentHostUri environmentId powerPlatformUrl
    = Panic "runtime error: slice bounds out of range".
Proof.
  intros environmentId powerPlatformUrl H.
  unfold Helpers.BuildEnvironmentHostUri.
  rewrite slice_from_negative; [reflexivity |].
  unfold len. lia.
Qed.

Lemma BuildEnvironmentHostUri_short_id_panics_witness :
  Helpers.BuildEnvironmentHostUri "" "api.powerplatform.com"
  = Panic "runtime error: slice bounds out of range"
  /\ Helpers.BuildEnvironmentHostUri "-a-" "api.powerplatform.com"
     = Panic "runtime error: slice bounds out of range".
Proof.
  split; apply BuildEnvironmentHostUri_short_id_panics; simpl; lia.
Defined.

(** ** The Power Pages client *)

Section Website.

Import PowerPages.

Lemma websiteResult_nil (resp : Api.Response) (err : option Api.error) :
  websiteResult resp err = None <->
  err = None /\ Api.StatusCode resp = StatusAccepted.
Proof.
  unfold websiteResult. destruct err as [e |].
  - split; [discriminate | intros [H _]; discriminate].
  - destruct (Api.StatusCode resp =? StatusAccepted) eqn:E; cbn [negb].
    + apply Z.eqb_eq in E. now split.
    + apply Z.eqb_neq in E. split; [discriminate | intros [_ H]; contradiction].
Qed.

Lemma websiteStatusCodes_eq : websiteStatusCodes = [401; 400; 202; 404].
Proof. reflexivity. Qed.

End Website.

(** C9: [CreateWebsite] asks [Execute] to accept 401, 400, 202 and 404,
    yet returns nil exactly when [Execute] returned without error a
    response whose status is 202.  When the first response has status
    400, 401 or 404, [Execute] reports success and [CreateWebsite]
    returns the error "unexpected status code: " followed by the raw
    body of the response. *)
Theorem CreateWebsite_nil_iff_accepted :
  forall (env : Api.Env) (powerPlatformUrl : string)
         (website : PowerPages.WebsiteCreateDto),
    let req := PowerPages.websiteRequest powerPlatformUrl website in
    (forall fuel,
        PowerPages.CreateWebsite fuel env powerPlatformUrl website = Some None <->
        exists resp,
          snd (Api.Execute fuel env req [401; 400; 202; 404])
          = Api.Returned resp None
          /\ Api.StatusCode resp = 202)
    /\ (forall fuel,
           let resp := Api.server env req 0 in
           In (Api.StatusCode resp) [400; 401; 404] ->
           snd (Api.Execute (S fuel) env req [401; 400; 202; 404])
           = Api.Returned resp None
           /\ PowerPages.CreateWebsite (S fuel) env powerPlatformUrl website
              = Some (Some (Api.Errorf
                              ("unexpected status code: " ++ Api.BodyAsBytes resp)%string))).
Proof.
  intros env powerPlatformUrl website req. split.
  - intros fuel. unfold PowerPages.CreateWebsite. fold req.
    change PowerPages.websiteStatusCodes with [401; 400; 202; 404].
    destruct (Api.Execute fuel env req [401; 400; 202; 404]) as [tr [resp err |]];
      cbn [snd].
    + split.
      * intros H. injection H as H. apply websiteResult_nil in H as [-> Hc].
        exists resp. now split.
      * intros [resp' [H Hc]]. injection H as -> ->. f_equal.
        apply websiteResult_nil. now split.
    + split; [discriminate | intros [resp' [H _]]; discriminate].
  - intros fuel resp Hin.
    assert (Hacc : Api.isAcceptable [401; 400; 202; 404] resp = true).
    { unfold Api.isAcceptable. apply array_Contains_In.
      simpl in Hin. simpl. intuition. }
    unfold PowerPages.CreateWebsite. fold req.
    change PowerPages.websiteStatusCodes with [401; 400; 202; 404].
    unfold Api.Execute. rewrite Execute_loop_acceptable by exact Hacc.
    cbn [snd]. split; [reflexivity |].
    unfold PowerPages.websiteResult. fold resp.
    replace (Api.StatusCode resp =? StatusAccepted) with false; [reflexivity |].
    symmetry. apply Z.eqb_neq. unfold StatusAccepted.
    simpl in Hin. lia.
Qed.

Lemma CreateWebsite_nil_iff_accepted_witness :
  PowerPages.CreateWebsite 1 notFound_env "api.powerplatform.com" someWebsite
  = Some (Some (Api.Errorf "unexpected status code: no such environment")).
Proof.
  apply (proj2 (CreateWebsite_nil_iff_accepted
                  notFound_env "api.powerplatform.com" someWebsite) 0%nat).
  simpl. unfold StatusNotFound. lia.
Defined.

(** ** The provisioning loop of [CreateApplicationUser] *)

Section Provisioning.

Import ApplicationUser.

Variable Execute : Context -> Z -> error * Z.
Variable GetUser : Context -> Z -> option ApplicationUserDto * error * Z.

Lemma retryLoop_stops (n : nat) (err : error) (ctx : Context) (now : Z) :
  forall e t,
    Execute ctx now = (e, t) ->
    match e with
    | None => true
    | Some text => negb (Contains text "userNotLicensed")
    end = true ->
    retryLoop Execute (S n) err ctx now = (e, t, [StExecute now t e]).
Proof. intros e t HE Hstop. cbn [retryLoop]. rewrite HE, Hstop. reflexivity. Qed.

Lemma retryLoop_sleeps (n : nat) (err : error) (ctx : Context) (now : Z) :
  forall e t,
    Execute ctx now = (e, t) ->
    match e with
    | None => true
    | Some text => negb (Contains text "userNotLicensed")
    end = false ->
    retryLoop Execute (S n) err ctx now =
      (fst (fst (retryLoop Execute n e ctx (t + 10 * Second))),
       snd (fst (retryLoop Execute n e ctx (t + 10 * Second))),
       StExecute now t e :: StSleep t (t + 10 * Second)
         :: snd (retryLoop Execute n e ctx (t + 10 * Second))).
Proof.
  intros e t HE Hstop. cbn [retryLoop]. rewrite HE, Hstop.
  now destruct (retryLoop Execute n e ctx (t + 10 * Second)) as [[e' t'] tr].
Qed.

(** Both ways an iteration can go, with the equation of each. *)
Lemma retryLoop_cases (n : nat) (err : error) (ctx : Context) (now : Z) :
  (exists e t, retryLoop Execute (S n) err ctx now = (e, t, [StExecute now t e]))
  \/ (exists e t,
         retryLoop Execute (S n) err ctx now =
           (fst (fst (retryLoop Execute n e ctx (t + 10 * Second))),
            snd (fst (retryLoop Execute n e ctx (t + 10 * Second))),
            StExecute now t e :: StSleep t (t + 10 * Second)
              :: snd (retryLoop Execute n e ctx (t + 10 * Second)))).
Proof.
  destruct (Execute ctx now) as [e t] eqn:HE.
  destruct (match e with
            | None => true
            | Some text => negb (Contains text "userNotLicensed")
            end) eqn:Hstop.
  - left. exists e, t. now apply retryLoop_stops.
  - right. exists e, t. now apply retryLoop_sleeps.
Qed.

(** The loop calls [Execute] at most [retryCount] times and sleeps
    ten seconds after each call but the last. *)
Lemma retryLoop_bounded (n : nat) :
  forall err ctx now,
    (executions (snd (retryLoop Execute n err ctx now)) <= n)%nat
    /\ 0 <= sleptTime (snd (retryLoop Execute n err ctx now))
         <= Z.of_nat n * (10 * Second).
Proof.
  induction n as [| n IH]; intros err ctx now.
  - cbn. lia.
  - destruct (retryLoop_cases n err ctx now) as [[e [t H]] | [e [t H]]];
      rewrite H; cbn [snd executions sleptTime].
    + unfold Second. lia.
    + destruct (IH e ctx (t + 10 * Second)) as [Hx Hs].
      unfold Second in *. lia.
Qed.

Lemma CreateApplicationUser_trace (ctx : Context) (now : Z) :
  snd (CreateApplicationUser Execute GetUser ctx now)
  = snd (retryLoop Execute 54 (Some "") ctx now).
Proof.
  unfold CreateApplicationUser. change (6 * 9)%nat with 54%nat.
  destruct (retryLoop Execute 54 (Some "") ctx now) as [[e t] tr].
  destruct e as [text |]; [reflexivity |].
  destruct (GetUser ctx t) as [[u e'] t'].
  now destruct e'.
Qed.

(** The provisioning loop is capped: at most 54 calls of [Execute]
    and at most nine minutes of sleeping. *)
Lemma CreateApplicationUser_attempts_capped (ctx : Context) (now : Z) :
  (executions (snd (CreateApplicationUser Execute GetUser ctx now)) <= 54)%nat
  /\ sleptTime (snd (CreateApplicationUser Execute GetUser ctx now)) <= 9 * Minute.
Proof.
  rewrite CreateApplicationUser_trace.
  destruct (retryLoop_bounded 54 (Some "") ctx now) as [Hx Hs].
  split; [exact Hx |]. unfold Minute, Second in *. lia.
Qed.

Section HonouredContext.

Variable ctx : Context.

(** [Execute] gives up at once on a done context, with the
    context's error, and that error does not mention the licence. *)
Hypothesis Execute_done :
  forall now, isDone ctx now = true -> Execute ctx now = (Some (doneText ctx), now).
Hypothesis doneText_plain : Contains (doneText ctx) "userNotLicensed" = false.

Lemma retryLoop_done (n : nat) (err : error) (now : Z) :
  isDone ctx now = true ->
  retryLoop Execute (S n) err ctx now =
    (Some (doneText ctx), now, [StExecute now now (Some (doneText ctx))]).
Proof.
  intros Hd. apply retryLoop_stops; [now apply Execute_done |].
  now rewrite doneText_plain.
Qed.

Lemma retryLoop_one_sleep_after_done (n : nat) :
  forall err now,
    (sleepsEndingDone ctx (snd (retryLoop Execute n err ctx now)) <= 1)%nat.
Proof.
  induction n as [| n IH]; intros err now; [cbn; lia |].
  destruct (retryLoop_cases n err ctx now) as [[e [t H]] | [e [t H]]];
    rewrite H; cbn [snd sleepsEndingDone]; [lia |].
  destruct (isDone ctx (t + 10 * Second)) eqn:Hd; [| apply IH].
  destruct n as [| n]; [cbn; lia |].
  rewrite retryLoop_done by exact Hd. cbn. lia.
Qed.

End HonouredContext.

End Provisioning.

(** ** The long-running operation poller *)

Section Poller.

Import Lro.

Variable cfg : Config.
Variable server : nat -> PollResponse.

Lemma poll_timed_out (fuel k : nat) (elapsed : Z) :
  maxWait cfg <= elapsed ->
  poll (S fuel) cfg server k elapsed = ([TimedOut], Some TimeoutError).
Proof.
  intros H. cbn [poll]. apply Z.leb_le in H. now rewrite H.
Qed.

Lemma poll_running (fuel k : nat) (elapsed : Z) :
  elapsed < maxWait cfg ->
  classify (server k) = Running \/ classify (server k) = Created
  \/ classify (server k) = TimedOut ->
  poll (S fuel) cfg server k elapsed =
    (Running :: fst (poll fuel cfg server (S k) (elapsed + sleepFor cfg (server k))),
     snd (poll fuel cfg server (S k) (elapsed + sleepFor cfg (server k)))).
Proof.
  intros H Hc. cbn [poll]. apply Z.leb_gt in H. rewrite H.
  destruct (poll fuel cfg server (S k) (elapsed + sleepFor cfg (server k))).
  now destruct Hc as [-> | [-> | ->]].
Qed.

Lemma classify_phases (r : PollResponse) :
  classify r = Running \/ classify r = Succeeded
  \/ classify r = Failed \/ classify r = Canceled.
Proof.
  unfold classify.
  destruct (code r =? StatusConflict); [now left |].
  destruct (String.eqb (status r) "Succeeded"); [now right; left |].
  destruct (String.eqb (status r) "Failed"); [now right; right; left |].
  destruct (String.eqb (status r) "Canceled"); [now right; right; right | now left].
Qed.

Lemma sleepFor_positive (r : PollResponse) :
  0 < pollInterval cfg -> 0 < sleepFor cfg r.
Proof.
  intros H. unfold sleepFor.
  destruct (retryAfter r) as [hint |]; [| exact H].
  destruct (0 <? hint) eqn:E; [now apply Z.ltb_lt | exact H].
Qed.

(** A run that returns, seen from poll [k] at the instant [elapsed]:
    it made [n] polls that found the operation running, each within
    the budget, and then returned for the reason its result names: the
    budget used up by the waits of these very polls, or the terminal
    status of the next response. *)
Lemma poll_returns_for_a_reason (fuel : nat) :
  forall k elapsed tr res,
    poll fuel cfg server k elapsed = (tr, Some res) ->
    exists n,
      tr = (repeat Running n ++ [phaseOf res])%list
      /\ (forall j, (j < n)%nat ->
                    classify (server (k + j)) = Running
                    /\ elapsed + waited cfg server k j < maxWait cfg)
      /\ match res with
         | TimeoutError => maxWait cfg <= elapsed + waited cfg server k n
         | FinalBody b =>
             elapsed + waited cfg server k n < maxWait cfg
             /\ classify (server (k + n)) = Succeeded
             /\ b = body (server (k + n))
         | OperationFailedError detail =>
             elapsed + waited cfg server k n < maxWait cfg
             /\ classify (server (k + n)) = Failed
             /\ detail = body (server (k + n))
         | OperationCanceledError =>
             elapsed + waited cfg server k n < maxWait cfg
             /\ classify (server (k + n)) = Canceled
         end.
Proof.
  induction fuel as [| fuel IH]; intros k elapsed tr res H; [discriminate |].
  destruct (Z.le_gt_cases (maxWait cfg) elapsed) as [Hto | Hin].
  - rewrite poll_timed_out in H by exact Hto. injection H as <- <-.
    exists 0%nat. cbn [repeat app phaseOf waited].
    split; [reflexivity |]. split; [intros j Hj; lia | lia].
  - destruct (classify_phases (server k)) as [Hc | Hc].
    + rewrite poll_running in H by (assumption || now left).
      destruct (poll fuel cfg server (S k) (elapsed + sleepFor cfg (server k)))
        as [tr' res'] eqn:Hp.
      cbn [fst snd] in H. injection H as <- ->.
      destruct (IH _ _ _ _ Hp) as [n [Htr [Hrun Hres]]].
      exists (S n). cbn [repeat app]. split; [now rewrite Htr |]. split.
      * intros j Hj. destruct j as [| j].
        -- rewrite Nat.add_0_r. cbn [waited]. split; [exact Hc | lia].
        -- replace (k + S j)%nat with (S k + j)%nat by lia. cbn [waited].
           destruct (Hrun j ltac:(lia)) as [Hcj Hwj]. split; [exact Hcj | lia].
      * replace (k + S n)%nat with (S k + n)%nat by lia. cbn [waited].
        destruct res; rewrite Z.add_assoc; exact Hres.
    + cbn [poll] in H. pose proof Hin as Hlt.
      apply Z.leb_gt in Hin. rewrite Hin in H.
      exists 0%nat. rewrite Nat.add_0_r. cbn [repeat app waited].
      rewrite Z.add_0_r.
      destruct Hc as [Hc | [Hc | Hc]]; rewrite Hc in H;
        injection H as <- <-; cbn [phaseOf];
        (split; [reflexivity |]); (split; [intros j Hj; lia |]);
        repeat split; (assumption || lia).
Qed.

(** With a positive poll interval the loop returns: the budget bounds
    the number of polls. *)
Lemma poll_returns (fuel : nat) :
  0 < pollInterval cfg ->
  forall k elapsed,
    (Z.to_nat (maxWait cfg - elapsed) < fuel)%nat ->
    exists res, snd (poll fuel cfg server k elapsed) = Some res.
Proof.
  intros Hpos. induction fuel as [| fuel IH]; intros k elapsed Hf; [lia |].
  destruct (Z.le_gt_cases (maxWait cfg) elapsed) as [Hto | Hin].
  - rewrite poll_timed_out by exact Hto. now eexists.
  - destruct (classify_phases (server k)) as [Hc | Hc].
    + rewrite poll_running by (assumption || now left). cbn [snd].
      apply IH. pose proof (sleepFor_positive (server k) Hpos). lia.
    + cbn [poll]. apply Z.leb_gt in Hin. rewrite Hin.
      destruct Hc as [Hc | [Hc | Hc]]; rewrite Hc; now eexists.
Qed.

End Poller.



(** * Further properties of the code *)

(** ** The shape of the environment host name *)

Section HostUriShape.

Lemma substring_whole (s : string) : substring 0 (String.length s) s = s.
Proof. induction s as [| c s IH]; [reflexivity |]. cbn. now rewrite IH. Qed.

Lemma substring_split (s : string) :
  forall n,
    (n <= String.length s)%nat ->
    (substring 0 n s ++ substring n (String.length s - n) s)%string = s.
Proof.
  induction s as [| c s IH]; intros n Hn.
  - cbn in Hn. now replace n with 0%nat by lia.
  - destruct n as [| n].
    + cbn. now rewrite substring_whole.
    + cbn in Hn. cbn. rewrite IH by lia. reflexivity.
Qed.

Lemma substring_length (s : string) :
  forall n m,
    (n + m <= String.length s)%nat -> String.length (substring n m s) = m.
Proof.
  induction s as [| c s IH]; intros n m H.
  - cbn in H. now destruct n, m; try lia.
  - destruct n as [| n].
    + destruct m as [| m]; [reflexivity |]. cbn in H. cbn. rewrite IH by lia.
      reflexivity.
    + cbn in H. cbn. apply IH. lia.
Qed.

Lemma ReplaceAll_leaves_none (s : string) (old : ascii) :
  forall n, get n (ReplaceAll s old "") <> Some old.
Proof.
  induction s as [| c s IH]; intros n.
  - now destruct n.
  - cbn [ReplaceAll]. destruct (Ascii.eqb c old) eqn:E.
    + cbn [String.append]. apply IH.
    + destruct n as [| n]; cbn [get]; [| apply IH].
      intros H. injection H as ->. now rewrite Ascii.eqb_refl in E.
Qed.

End HostUriShape.

(** X4: for an environment id with at least two bytes besides its
    hyphens, [BuildEnvironmentHostUri] returns
    [prefix.realm.environment.powerPlatformUrl], where [realm] is the
    last two bytes of the id without its hyphens and [prefix] all the
    bytes before them (none when there are only two); no hyphen of the
    id reaches these two labels. *)
Theorem BuildEnvironmentHostUri_splits_id :
  forall environmentId powerPlatformUrl : string,
    (2 <= String.length (ReplaceAll environmentId "-" ""))%nat ->
    exists prefix realm : string,
      Helpers.BuildEnvironmentHostUri environmentId powerPlatformUrl
      = Ret (prefix ++ "." ++ realm ++ ".environment." ++ powerPlatformUrl)%string
      /\ (prefix ++ realm)%string = ReplaceAll environmentId "-" ""
      /\ String.length realm = 2%nat
      /\ String.length prefix
         = (String.length (ReplaceAll environmentId "-" "") - 2)%nat
      /\ forall n, get n (prefix ++ realm)%string <> Some "-"%char.
Proof.
  intros environmentId powerPlatformUrl H.
  set (envId := ReplaceAll environmentId "-" "") in *.
  assert (Hlo : Z.to_nat (len envId - 2) = (String.length envId - 2)%nat)
    by (unfold len; lia).
  exists (substring 0 (String.length envId - 2) envId),
         (substring (String.length envId - 2)
                    (String.length envId - (String.length envId - 2)) envId).
  split; [| split; [| split; [| split]]].
  - unfold Helpers.BuildEnvironmentHostUri. fold envId.
    unfold slice_from, slice_to.
    replace (0 <=? len envId - 2) with true
      by (symmetry; apply Z.leb_le; unfold len; lia).
    replace (len envId - 2 <=? len envId) with true
      by (symmetry; apply Z.leb_le; unfold len; lia).
    cbn [andb bind]. rewrite Hlo. reflexivity.
  - apply substring_split. lia.
  - rewrite substring_length by lia. lia.
  - rewrite substring_length by lia. reflexivity.
  - rewrite substring_split by lia. apply ReplaceAll_leaves_none.
Qed.

Lemma BuildEnvironmentHostUri_splits_id_witness :
  exists prefix realm : string,
    Helpers.BuildEnvironmentHostUri "a-b" "api.powerplatform.com"
    = Ret (prefix ++ "." ++ realm ++ ".environment." ++ "api.powerplatform.com")%string
    /\ (prefix ++ realm)%string = ReplaceAll "a-b" "-" ""
    /\ String.length realm = 2%nat
    /\ String.length prefix = (String.length (ReplaceAll "a-b" "-" "") - 2)%nat
    /\ forall n, get n (prefix ++ realm)%string <> Some "-"%char.
Proof.
  apply (BuildEnvironmentHostUri_splits_id "a-b" "api.powerplatform.com").
  simpl. lia.
Defined.

(** ** Provider errors *)

Section ProviderErrors.

Import CustomErrors.

Variable providerUnwrap : option goerror -> ErrorCode -> option goerror.
Variable providerText : option goerror -> ErrorCode -> string.

Lemma Unwrap_wrapped_nil (errorCode : ErrorCode) (msg : string) :
  Unwrap providerUnwrap
    (Some (WrapIntoProviderError providerText None errorCode msg)) = None.
Proof. reflexivity. Qed.

End ProviderErrors.

(** X5: [Unwrap] undoes [WrapIntoProviderError]: applied to the
    provider error that wraps [err] it gives back [err] itself, nil
    when a nil error was wrapped, whatever the error code and the
    message; the error [fmt.Errorf] built in between, which carries the
    message, is skipped. *)
Theorem Unwrap_WrapIntoProviderError :
  forall (providerUnwrap :
            option CustomErrors.goerror -> CustomErrors.ErrorCode ->
            option CustomErrors.goerror)
         (providerText :
            option CustomErrors.goerror -> CustomErrors.ErrorCode -> string)
         (err : option CustomErrors.goerror)
         (errorCode : CustomErrors.ErrorCode) (msg : string),
    CustomErrors.Unwrap providerUnwrap
      (Some (CustomErrors.WrapIntoProviderError providerText err errorCode msg))
    = err
    /\ (forall e,
           err = Some e ->
           exists inner,
             CustomErrors.WrapIntoProviderError providerText err errorCode msg
             = CustomErrors.ProviderError (Some inner) errorCode
             /\ CustomErrors.Error providerText inner
                = (msg ++ ": [" ++ CustomErrors.Error providerText e ++ "]")%string
             /\ CustomErrors.errors_Unwrap providerUnwrap (Some inner) = Some e).
Proof.
  intros providerUnwrap providerText err errorCode msg. split.
  - destruct err as [e |]; reflexivity.
  - intros e ->. eexists. repeat split.
Qed.

Lemma Unwrap_WrapIntoProviderError_witness :
  exists inner,
    CustomErrors.WrapIntoProviderError (fun _ _ => "provider error")
      (Some (CustomErrors.errorString "boom")) "E1" "reading user"
    = CustomErrors.ProviderError (Some inner) "E1"
    /\ CustomErrors.Error (fun _ _ => "provider error") inner
       = "reading user: [boom]"
    /\ CustomErrors.errors_Unwrap (fun e _ => e) (Some inner)
       = Some (CustomErrors.errorString "boom").
Proof.
  exact (proj2 (Unwrap_WrapIntoProviderError
                  (fun e _ => e) (fun _ _ => "provider error")
                  (Some (CustomErrors.errorString "boom")) "E1" "reading user")
               (CustomErrors.errorString "boom") eq_refl).
Defined.

(** ** The action rules of a DLP policy *)

Section DlpRules.

Import DlpPolicy.

Lemma Diagnostic_eqb_eq (a b : Diagnostic) : Diagnostic_eqb a b = true <-> a = b.
Proof.
  destruct a as [sa pa ma da], b as [sb pb mb db].
  unfold Diagnostic_eqb. cbn [DiagSeverity AttributePath Summary Detail].
  rewrite !andb_true_iff. split.
  - intros [[[Hs Hp] Hm] Hd].
    apply String.eqb_eq in Hm, Hd. subst.
    assert (sa = sb) by (destruct sa, sb; (reflexivity || discriminate)).
    assert (pa = pb).
    { destruct pa as [p |], pb as [q |]; try discriminate; [| reflexivity].
      cbn in Hp. apply String.eqb_eq in Hp. now subst. }
    now subst.
  - intros H. injection H as -> -> -> ->.
    rewrite !String.eqb_refl. repeat split.
    + now destruct sb.
    + destruct pb as [q |]; [apply String.eqb_refl | reflexivity].
Qed.

Lemma Contains_In (diags : list Diagnostic) (d : Diagnostic) :
  Contains diags d = true <-> In d diags.
Proof.
  unfold Contains. rewrite existsb_exists. split.
  - intros [x [Hin Heq]]. apply Diagnostic_eqb_eq in Heq. now subst.
  - intros Hin. exists d. split; [exact Hin | now apply Diagnostic_eqb_eq].
Qed.

Lemma Append_contains (diags : list Diagnostic) (d : Diagnostic) :
  Contains (Append diags d) d = true.
Proof.
  unfold Append. destruct (Contains diags d) eqn:E; [exact E |].
  apply Contains_In, in_or_app. right. now left.
Qed.

Lemma Append_twice (diags : list Diagnostic) (d : Diagnostic) :
  Append (Append diags d) d = Append diags d.
Proof.
  unfold Append at 1. now rewrite Append_contains.
Qed.

(** However many connectors are rejected, the loop adds its error at
    most once. *)
Lemma ValidateConfig_adds_once (connectors : list Connector) :
  forall diags,
    ValidateConfig connectors diags =
      if existsb rejected connectors then Append diags actionRuleError else diags.
Proof.
  induction connectors as [| c rest IH]; intros diags; [reflexivity |].
  cbn [ValidateConfig existsb]. destruct (rejected c); cbn [orb].
  - rewrite IH. change (AddAttributeError diags EmptyString
                          "Incorrect attribute Configuration"
                          "Expected 'default_action_rule_behavior' to be empty if 'action_rules' are empty.")
      with (Append diags actionRuleError).
    destruct (existsb rejected rest); [apply Append_twice | reflexivity].
  - apply IH.
Qed.

Lemma rejected_false (c : Connector) :
  rejected c = false <->
  (DefaultActionRuleBehavior c = "" <-> ActionRules c = []).
Proof.
  unfold rejected.
  destruct (String.eqb_spec (DefaultActionRuleBehavior c) "") as [E | E];
    destruct (ActionRules c) as [| r rules]; cbn.
  - split; [intros _; now split | reflexivity].
  - split; [discriminate | intros [H _]; now specialize (H E)].
  - split; [discriminate | intros [_ H]; now specialize (H eq_refl)].
  - split; [intros _; split; [contradiction | discriminate] | reflexivity].
Qed.

Lemma none_rejected (connectors : list Connector) :
  existsb rejected connectors = false <->
  forall c, In c connectors ->
            (DefaultActionRuleBehavior c = "" <-> ActionRules c = []).
Proof.
  split.
  - intros H c Hin. apply rejected_false.
    destruct (rejected c) eqn:E; [| reflexivity].
    assert (existsb rejected connectors = true)
      by (apply existsb_exists; now exists c).
    congruence.
  - intros H. destruct (existsb rejected connectors) eqn:E; [| reflexivity].
    apply existsb_exists in E. destruct E as [c [Hin Hr]].
    apply H, rejected_false in Hin. congruence.
Qed.

End DlpRules.

(** X6: the loop of [ValidateConfig] adds the "Incorrect attribute
    Configuration" error when some connector sets
    [default_action_rule_behavior] without action rules or has action
    rules without it, and adds it once however many connectors do so,
    because the framework does not add a diagnostic equal to one that
    is already there; it adds nothing else.  On diagnostics that do
    not hold this error yet, it leaves them as they are exactly when,
    for every connector, the behaviour is empty if and only if the
    list of action rules is. *)
Theorem ValidateConfig_accepts_iff_consistent :
  forall (connectors : list DlpPolicy.Connector) (diags : list DlpPolicy.Diagnostic),
    DlpPolicy.ValidateConfig connectors diags =
      (if existsb DlpPolicy.rejected connectors
       then if DlpPolicy.Contains diags DlpPolicy.actionRuleError
            then diags
            else (diags ++ [DlpPolicy.actionRuleError])%list
       else diags)
    /\ (~ In DlpPolicy.actionRuleError diags ->
        (DlpPolicy.ValidateConfig connectors diags = diags <->
         forall c, In c connectors ->
                   (DlpPolicy.DefaultActionRuleBehavior c = "" <->
                    DlpPolicy.ActionRules c = [])))
    /\ (forall c, In c connectors -> DlpPolicy.rejected c = true ->
                  In DlpPolicy.actionRuleError
                     (DlpPolicy.ValidateConfig connectors diags)).
Proof.
  intros connectors diags. split; [| split].
  - rewrite ValidateConfig_adds_once. reflexivity.
  - intros Hnot. rewrite ValidateConfig_adds_once.
    rewrite <- none_rejected.
    destruct (existsb DlpPolicy.rejected connectors); [| now split].
    unfold DlpPolicy.Append.
    destruct (DlpPolicy.Contains diags DlpPolicy.actionRuleError) eqn:E.
    + apply Contains_In in E. contradiction.
    + split; [| discriminate].
      intros H. apply (f_equal (@List.length _)) in H.
      rewrite length_app in H. cbn in H. lia.
  - intros c Hin Hr. rewrite ValidateConfig_adds_once.
    replace (existsb DlpPolicy.rejected connectors) with true
      by (symmetry; apply existsb_exists; now exists c).
    apply Contains_In, Append_contains.
Qed.

Lemma ValidateConfig_accepts_iff_consistent_witness :
  DlpPolicy.ValidateConfig
    [DlpPolicy.behaviourWithoutRules; DlpPolicy.behaviourWithRules;
     DlpPolicy.rulesWithoutBehaviour] []
  = [DlpPolicy.actionRuleError]
  /\ DlpPolicy.ValidateConfig
       [DlpPolicy.behaviourWithRules; DlpPolicy.neitherBehaviourNorRules] []
     = [].
Proof.
  split.
  - exact (proj1 (ValidateConfig_accepts_iff_consistent
                    [DlpPolicy.behaviourWithoutRules; DlpPolicy.behaviourWithRules;
                     DlpPolicy.rulesWithoutBehaviour] [])).
  - apply (proj1 (proj2 (ValidateConfig_accepts_iff_consistent
                           [DlpPolicy.behaviourWithRules;
                            DlpPolicy.neitherBehaviourNorRules] []))).
    + intros [].
    + intros c [<- | [<- | []]]; cbn; split; (reflexivity || discriminate).
Defined.

(** ** The role ids of an application user *)

Section RoleIds.

Import GoStrings UserModels.

Lemma fold_append_role_ids (l : list ApplicationUser.SecurityRoleDto) :
  forall acc,
    fold_left (fun roles role => append roles (ApplicationUser.RoleId role))
      l (Some acc)
    = Some (acc ++ map ApplicationUser.RoleId l)%list.
Proof.
  induction l as [| r l IH]; intros acc; cbn.
  - now rewrite app_nil_r.
  - rewrite IH. now rewrite <- app_assoc.
Qed.

End RoleIds.

(** X7: [SecurityRolesArray] returns the role ids of the user's
    security roles, one per role and in their order, and never the nil
    slice, also when the user has no roles; this is the value
    [ConvertFromApplicationUserDto] stores as [SecurityRoles], next to
    the known id, application name and business unit of the DTO and an
    environment id that is left null. *)
Theorem SecurityRolesArray_lists_role_ids :
  forall (u : ApplicationUser.ApplicationUserDto) (disableDelete : bool),
    UserModels.SecurityRolesArray u
    = Some (map ApplicationUser.RoleId (ApplicationUser.SecurityRoles u))
    /\ UserModels.SecurityRoles (UserModels.ConvertFromApplicationUserDto u disableDelete)
       = Some (map ApplicationUser.RoleId (ApplicationUser.SecurityRoles u))
    /\ UserModels.EnvironmentId (UserModels.ConvertFromApplicationUserDto u disableDelete)
       = UserModels.StringNull.
Proof.
  intros u disableDelete.
  assert (H : UserModels.SecurityRolesArray u
              = Some (map ApplicationUser.RoleId (ApplicationUser.SecurityRoles u))).
  { unfold UserModels.SecurityRolesArray.
    destruct (ApplicationUser.SecurityRoles u) as [| r l]; [reflexivity |].
    cbn [List.length Nat.eqb fold_left GoStrings.append].
    now rewrite fold_append_role_ids. }
  repeat split; exact H.
Qed.

(** ** More on the provisioning loop *)

Section ProvisioningSteps.

Import ApplicationUser ProvisioningTrace.

Variable Execute : Context -> Z -> error * Z.
Variable GetUser : Context -> Z -> option ApplicationUserDto * error * Z.

Lemma stop_test_notLicensed (e : error) :
  match e with
  | None => true
  | Some text => negb (Contains text "userNotLicensed")
  end = negb (notLicensed e).
Proof. now destruct e. Qed.

(** The equations of one iteration, with the test read through
    [notLicensed]. *)
Lemma retryLoop_step (n : nat) (err : error) (ctx : Context) (now : Z) :
  retryLoop Execute (S n) err ctx now =
    let e := fst (Execute ctx now) in
    let t := snd (Execute ctx now) in
    if notLicensed e
    then (fst (fst (retryLoop Execute n e ctx (t + 10 * Second))),
          snd (fst (retryLoop Execute n e ctx (t + 10 * Second))),
          StExecute now t e :: StSleep t (t + 10 * Second)
            :: snd (retryLoop Execute n e ctx (t + 10 * Second)))
    else (e, t, [StExecute now t e]).
Proof.
  destruct (Execute ctx now) as [e t] eqn:HE. cbn [fst snd].
  destruct (notLicensed e) eqn:Hn.
  - apply retryLoop_sleeps; [exact HE |].
    rewrite stop_test_notLicensed, Hn. reflexivity.
  - apply retryLoop_stops; [exact HE |].
    rewrite stop_test_notLicensed, Hn. reflexivity.
Qed.

Lemma retryLoop_follows (n : nat) :
  forall err ctx now,
    followsLoop now (snd (retryLoop Execute n err ctx now)) = true
    /\ snd (fst (retryLoop Execute n err ctx now))
       = endTime now (snd (retryLoop Execute n err ctx now))
    /\ ((0 < n)%nat ->
        lastError (snd (retryLoop Execute n err ctx now))
        = Some (fst (fst (retryLoop Execute n err ctx now)))).
Proof.
  induction n as [| n IH]; intros err ctx now.
  - cbn. repeat split. lia.
  - rewrite retryLoop_step. cbv zeta.
    destruct (Execute ctx now) as [e t]. cbn [fst snd].
    destruct (notLicensed e) eqn:Hn; cbn [fst snd followsLoop endTime lastError].
    + destruct (IH e ctx (t + 10 * Second)) as [Hf [Ht Hl]].
      rewrite Hn, Hf, !Z.eqb_refl. split; [reflexivity |]. split; [exact Ht |].
      intros _. destruct n as [| n]; [reflexivity |].
      rewrite Hl by lia. reflexivity.
    + rewrite Hn, Z.eqb_refl. repeat split.
Qed.

Lemma retryLoop_sleeps_le_executions (n : nat) :
  forall err ctx now,
    (sleepCount (snd (retryLoop Execute n err ctx now))
     <= executions (snd (retryLoop Execute n err ctx now)))%nat.
Proof.
  induction n as [| n IH]; intros err ctx now; [cbn; lia |].
  rewrite retryLoop_step. cbv zeta.
  destruct (notLicensed (fst (Execute ctx now))).
  - cbn [snd sleepCount executions].
    specialize (IH (fst (Execute ctx now)) ctx
                  (snd (Execute ctx now) + 10 * Second)).
    lia.
  - cbn. lia.
Qed.

Section NeverLicensed.

Variable ctx : Context.

Hypothesis never_licensed : forall now, notLicensed (fst (Execute ctx now)) = true.

Lemma retryLoop_exhausted (n : nat) :
  forall err now,
    executions (snd (retryLoop Execute n err ctx now)) = n
    /\ sleepCount (snd (retryLoop Execute n err ctx now)) = n
    /\ sleptTime (snd (retryLoop Execute n err ctx now)) = Z.of_nat n * (10 * Second)
    /\ ((0 < n)%nat ->
        notLicensed (fst (fst (retryLoop Execute n err ctx now))) = true
        /\ exists t1,
            last (snd (retryLoop Execute n err ctx now)) (StSleep 0 0)
            = StSleep t1 (snd (fst (retryLoop Execute n err ctx now)))
            /\ snd (fst (retryLoop Execute n err ctx now)) = t1 + 10 * Second).
Proof.
  induction n as [| n IH]; intros err now.
  - cbn. split; [reflexivity |]. split; [reflexivity |]. split; [reflexivity |].
    intros H. lia.
  - rewrite retryLoop_step. cbv zeta. rewrite never_licensed.
    destruct (IH (fst (Execute ctx now)) (snd (Execute ctx now) + 10 * Second))
      as [Hx [Hc [Hs Hl]]].
    cbn [fst snd executions sleepCount sleptTime].
    rewrite Hx, Hc, Hs. split; [reflexivity |]. split; [reflexivity |].
    split; [lia |]. intros _.
    destruct n as [| n].
    + cbn. split; [apply never_licensed |]. eexists. split; reflexivity.
    + destruct (Hl ltac:(lia)) as [Hn [t1 [Hlast Ht]]].
      split; [exact Hn |]. exists t1. split; [| exact Ht].
      rewrite <- Hlast.
      destruct (snd (retryLoop Execute (S n) (fst (Execute ctx now)) ctx
                       (snd (Execute ctx now) + 10 * Second))) as [| st tr] eqn:E.
      * cbn in Hx. lia.
      * reflexivity.
Qed.

End NeverLicensed.

End ProvisioningSteps.

(** X8: when every attempt fails because the user has no licence yet,
    [CreateApplicationUser] calls [Execute] 54 times, sleeps ten
    seconds after each of the 54 calls, nine minutes in all, the last
    sleep coming after the last attempt, and then returns the last
    not-licensed error and no user. *)
Theorem CreateApplicationUser_gives_up_after_54_attempts :
  forall (Execute : ApplicationUser.Context -> Z -> error * Z)
         (GetUser : ApplicationUser.Context -> Z ->
                    option ApplicationUser.ApplicationUserDto * error * Z)
         (ctx : ApplicationUser.Context) (now : Z),
    (forall t, ProvisioningTrace.notLicensed (fst (Execute ctx t)) = true) ->
    exists text t tr,
      ApplicationUser.CreateApplicationUser Execute GetUser ctx now
      = (None, Some text, t, tr)
      /\ Contains text "userNotLicensed" = true
      /\ ApplicationUser.executions tr = 54%nat
      /\ ProvisioningTrace.sleepCount tr = 54%nat
      /\ ApplicationUser.sleptTime tr = 9 * Minute
      /\ exists t1,
          last tr (ApplicationUser.StSleep 0 0) = ApplicationUser.StSleep t1 t
          /\ t = t1 + 10 * Second.
Proof.
  intros Execute GetUser ctx now H.
  destruct (retryLoop_exhausted Execute ctx H 54 (Some "") now)
    as [Hx [Hc [Hs Hl]]].
  destruct (Hl ltac:(lia)) as [Hn [t1 [Hlast Ht]]].
  unfold ApplicationUser.CreateApplicationUser. change (6 * 9)%nat with 54%nat.
  destruct (ApplicationUser.retryLoop Execute 54 (Some "") ctx now)
    as [[e t] tr].
  cbn [fst snd] in *.
  destruct e as [text |]; [| discriminate Hn].
  exists text, t, tr. split; [reflexivity |]. split; [exact Hn |].
  split; [exact Hx |]. split; [exact Hc |].
  split; [rewrite Hs; unfold Minute, Second; lia |].
  exists t1. now split.
Qed.

Lemma CreateApplicationUser_gives_up_after_54_attempts_witness :
  exists text t tr,
    ApplicationUser.CreateApplicationUser ApplicationUser.unlicensedExecute
      ApplicationUser.noUser ProvisioningTrace.neverDone 0
    = (None, Some text, t, tr)
    /\ Contains text "userNotLicensed" = true
    /\ ApplicationUser.executions tr = 54%nat
    /\ ProvisioningTrace.sleepCount tr = 54%nat
    /\ ApplicationUser.sleptTime tr = 9 * Minute
    /\ exists t1,
        last tr (ApplicationUser.StSleep 0 0) = ApplicationUser.StSleep t1 t
        /\ t = t1 + 10 * Second.
Proof.
  apply (CreateApplicationUser_gives_up_after_54_attempts
           ApplicationUser.unlicensedExecute ApplicationUser.noUser
           ProvisioningTrace.neverDone 0).
  intros t. reflexivity.
Defined.

(** X9: in every run of [CreateApplicationUser] the steps follow the
    loop: there is at least one call of [Execute]; each call starts
    when the step before it ended; every call but possibly the last
    returned a not-licensed error and is followed by a sleep of exactly
    ten seconds that starts at its return; and a call that is not
    followed by a sleep returned nil or another error. *)
Theorem CreateApplicationUser_steps_follow_loop :
  forall (Execute : ApplicationUser.Context -> Z -> error * Z)
         (GetUser : ApplicationUser.Context -> Z ->
                    option ApplicationUser.ApplicationUserDto * error * Z)
         (ctx : ApplicationUser.Context) (now : Z),
    let tr := snd (ApplicationUser.CreateApplicationUser Execute GetUser ctx now) in
    ProvisioningTrace.followsLoop now tr = true
    /\ (1 <= ApplicationUser.executions tr <= 54)%nat
    /\ (ProvisioningTrace.sleepCount tr <= ApplicationUser.executions tr)%nat.
Proof.
  intros Execute GetUser ctx now tr. subst tr.
  rewrite CreateApplicationUser_trace.
  destruct (retryLoop_follows Execute 54 (Some "") ctx now) as [Hf [_ Hl]].
  specialize (Hl ltac:(lia)).
  destruct (retryLoop_bounded Execute 54 (Some "") ctx now) as [Hx _].
  split; [exact Hf |]. split.
  - split; [| exact Hx].
    destruct (snd (ApplicationUser.retryLoop Execute 54 (Some "") ctx now))
      as [| st tr]; [discriminate Hl |].
    destruct st; [cbn; lia | discriminate Hf].
  - apply retryLoop_sleeps_le_executions.
Qed.

(** X10: the result of [CreateApplicationUser] is decided by its last
    call of [Execute].  If that call returned an error, this error is
    returned with no user, at the instant the steps end and without
    looking the user up; if it returned nil, the user is looked up at
    the instant that call returned and the outcome of the lookup is the
    result, with no user when the lookup fails.  The empty error the
    function starts with is never the result. *)
Theorem CreateApplicationUser_result_from_last_call :
  forall (Execute : ApplicationUser.Context -> Z -> error * Z)
         (GetUser : ApplicationUser.Context -> Z ->
                    option ApplicationUser.ApplicationUserDto * error * Z)
         (ctx : ApplicationUser.Context) (now : Z),
    let '(res, err, t, tr) :=
      ApplicationUser.CreateApplicationUser Execute GetUser ctx now in
    match ProvisioningTrace.lastError tr with
    | Some (Some text) =>
        res = None /\ err = Some text /\ t = ProvisioningTrace.endTime now tr
    | Some None =>
        let '(u, e, t') := GetUser ctx (ProvisioningTrace.endTime now tr) in
        err = e /\ t = t'
        /\ res = match e with Some _ => None | None => u end
    | None => False
    end.
Proof.
  intros Execute GetUser ctx now.
  destruct (retryLoop_follows Execute 54 (Some "") ctx now) as [_ [Ht Hl]].
  specialize (Hl ltac:(lia)).
  unfold ApplicationUser.CreateApplicationUser. change (6 * 9)%nat with 54%nat.
  destruct (ApplicationUser.retryLoop Execute 54 (Some "") ctx now)
    as [[e t] tr].
  cbn [fst snd] in Ht, Hl.
  destruct e as [text |].
  - rewrite Hl. now repeat split.
  - subst t.
    destruct (GetUser ctx (ProvisioningTrace.endTime now tr)) as [[u e'] t'] eqn:HG.
    destruct e' as [text |]; rewrite Hl, HG; now repeat split.
Qed.

(** ** The provisioning loop and the context *)

Section LoopAndContext.

Import ApplicationUser ProvisioningTrace Cancellation.

(** The loop looks at the context through [Execute] only. *)
Lemma retryLoop_same_answers (Execute : Context -> Z -> error * Z) (n : nat) :
  forall err ctx ctx' now,
    (forall t, Execute ctx' t = Execute ctx t) ->
    retryLoop Execute n err ctx' now = retryLoop Execute n err ctx now.
Proof.
  induction n as [| n IH]; intros err ctx ctx' now H; [reflexivity |].
  cbn [retryLoop]. rewrite H.
  destruct (Execute ctx now) as [e t].
  destruct (match e with
            | None => true
            | Some text => negb (Contains text "userNotLicensed")
            end); [reflexivity |].
  now rewrite (IH e ctx ctx' (t + 10 * Second) H).
Qed.

Lemma Send_done (request : Z -> error * Z) (ctx : Context) (now : Z) :
  isDone ctx now = true -> Send request ctx now = (Some (doneText ctx), now).
Proof. intros H. unfold Send, Err. now rewrite H. Qed.

(** The wait of the specification: it ends with the interval or,
    earlier, at the instant the context is done, and reports the
    context's error exactly when the context is done by then. *)
Lemma waitWithContext_ends (ctx : Context) (now d : Z) :
  0 <= d ->
  now <= snd (waitWithContext ctx now d) <= now + d
  /\ (isDone ctx now = true ->
      waitWithContext ctx now d = (Some (doneText ctx), now))
  /\ (fst (waitWithContext ctx now d) = None <-> isDone ctx (now + d) = false)
  /\ (fst (waitWithContext ctx now d) = None ->
      snd (waitWithContext ctx now d) = now + d)
  /\ (fst (waitWithContext ctx now d) <> None ->
      fst (waitWithContext ctx now d) = Some (doneText ctx)
      /\ isDone ctx (snd (waitWithContext ctx now d)) = true).
Proof.
  intros Hd. unfold waitWithContext, isDone.
  destruct (doneAt ctx) as [t |]; cbn [fst snd];
    [destruct (Z.leb_spec t now) as [H1 | H1]; cbn [fst snd];
     [| destruct (Z.leb_spec t (now + d)) as [H2 | H2]; cbn [fst snd]] |];
    repeat split; intros;
    try reflexivity; try discriminate; try congruence; try lia;
    try (apply Z.leb_le; lia); try (apply Z.leb_gt; lia);
    try match goal with
        | H : (_ <=? _) = true |- _ => apply Z.leb_le in H; lia
        | H : (_ <=? _) = false |- _ => apply Z.leb_gt in H; lia
        end.
Qed.

End LoopAndContext.




(** ** The application-user client *)

Section TrimLemmas.

Import GoStrings.

Lemma length_append (s t : string) :
  String.length (s ++ t)%string = (String.length s + String.length t)%nat.
Proof. induction s as [| c s IH]; [reflexivity |]. cbn. now rewrite IH. Qed.

Lemma substring_skip (p s : string) (m : nat) :
  substring (String.length p) m (p ++ s)%string = substring 0 m s.
Proof. induction p as [| c p IH]; [reflexivity |]. cbn. exact IH. Qed.

Lemma substring_keep (s t : string) :
  substring 0 (String.length s) (s ++ t)%string = s.
Proof.
  induction s as [| c s IH]; [now destruct t |]. cbn. now rewrite IH.
Qed.

Lemma prefix_append (p s : string) : prefix p (p ++ s)%string = true.
Proof. apply prefix_correct. apply substring_keep. Qed.

Lemma TrimPrefix_append (p s : string) : TrimPrefix (p ++ s)%string p = s.
Proof.
  unfold TrimPrefix, HasPrefix. rewrite prefix_append, length_append.
  replace (String.length p + String.length s - String.length p)%nat
    with (String.length s) by lia.
  rewrite substring_skip. apply substring_whole.
Qed.

Lemma TrimSuffix_append (s suffix : string) :
  TrimSuffix (s ++ suffix)%string suffix = s.
Proof.
  unfold TrimSuffix, HasSuffix. rewrite length_append.
  replace (String.length s + String.length suffix - String.length suffix)%nat
    with (String.length s) by lia.
  rewrite substring_skip, substring_whole, String.eqb_refl.
  replace (String.length suffix <=? String.length s + String.length suffix)%nat
    with true by (symmetry; apply Nat.leb_le; lia).
  cbn [andb]. apply substring_keep.
Qed.

End TrimLemmas.

Section ClientCalls.

Import UserClient.

Variable client : Client.

Lemma Execute_eq (log : list Call) (c : Call) :
  Execute client log c
  = (fst (api client log c), snd (api client log c), (log ++ [c])%list).
Proof. unfold Execute. now destruct (api client log c). Qed.

Lemma GetEnvironmentUrlById_fails (environmentId : string) (log : list Call) (e : string) :
  fst (api client log (environmentCall client environmentId)) = Some e ->
  GetEnvironmentUrlById client environmentId log
  = (EmptyString, Some e, (log ++ [environmentCall client environmentId])%list).
Proof.
  intros H. unfold GetEnvironmentUrlById, getEnvironment.
  rewrite Execute_eq, H. reflexivity.
Qed.

Lemma GetEnvironmentUrlById_works (environmentId : string) (log : list Call) :
  fst (api client log (environmentCall client environmentId)) = None ->
  GetEnvironmentUrlById client environmentId log
  = (GoStrings.TrimSuffix
       (InstanceURL
          (LinkedEnvironmentMetadata
             (Properties
                (asEnvironment
                   (snd (api client log (environmentCall client environmentId)))))))
       "/",
     None, (log ++ [environmentCall client environmentId])%list).
Proof.
  intros H. unfold GetEnvironmentUrlById, getEnvironment.
  rewrite Execute_eq, H. reflexivity.
Qed.

(** The loop over the roles ends at the first call that fails, with
    its error and after exactly the calls up to it. *)
Lemma forEachRole_first_failure (call : string -> Call) (roles : list string) :
  forall log k e,
    (k < List.length roles)%nat ->
    (forall j, (j < k)%nat ->
               fst (api client (log ++ map call (firstn j roles))%list
                      (call (nth j roles EmptyString))) = None) ->
    fst (api client (log ++ map call (firstn k roles))%list
           (call (nth k roles EmptyString))) = Some e ->
    forEachRole client call roles log
    = (Some e, (log ++ map call (firstn (S k) roles))%list).
Proof.
  induction roles as [| r rest IH]; intros log k e Hk Hok Hfail; [cbn in Hk; lia |].
  cbn [forEachRole]. rewrite Execute_eq.
  destruct k as [| k].
  - cbn [firstn map nth] in Hfail. rewrite app_nil_r in Hfail.
    rewrite Hfail. reflexivity.
  - pose proof (Hok 0%nat ltac:(lia)) as H0.
    cbn [firstn map nth] in H0. rewrite app_nil_r in H0. rewrite H0.
    rewrite (IH (log ++ [call r])%list k e).
    + cbn [firstn map]. now rewrite <- app_assoc.
    + cbn in Hk. lia.
    + intros j Hj. specialize (Hok (S j) ltac:(lia)).
      cbn [firstn map nth] in Hok. now rewrite <- app_assoc.
    + cbn [firstn map nth] in Hfail. now rewrite <- app_assoc.
Qed.

(** When none of its calls fails the loop makes them all. *)
Lemma forEachRole_no_failure (call : string -> Call) (roles : list string) :
  forall log,
    (forall j, (j < List.length roles)%nat ->
               fst (api client (log ++ map call (firstn j roles))%list
                      (call (nth j roles EmptyString))) = None) ->
    forEachRole client call roles log = (None, (log ++ map call roles)%list).
Proof.
  induction roles as [| r rest IH]; intros log Hok.
  - cbn. now rewrite app_nil_r.
  - cbn [forEachRole]. rewrite Execute_eq.
    pose proof (Hok 0%nat ltac:(cbn; lia)) as H0.
    cbn [firstn map nth] in H0. rewrite app_nil_r in H0. rewrite H0.
    rewrite (IH (log ++ [call r])%list).
    + cbn [map]. now rewrite <- app_assoc.
    + intros j Hj. specialize (Hok (S j) ltac:(cbn; lia)).
      cbn [firstn map nth] in Hok. now rewrite <- app_assoc.
Qed.

End ClientCalls.

(** X11: when the environment lookup fails, every operation of the
    client that needs the environment URL returns that error with no
    result after this single request: nothing is read, changed or
    deleted in Dataverse. *)
Theorem environment_lookup_failure_stops_operation :
  forall (client : UserClient.Client) (environmentId : string)
         (log : list UserClient.Call) (e : string),
    fst (UserClient.api client log (UserClient.environmentCall client environmentId))
    = Some e ->
    let log' := (log ++ [UserClient.environmentCall client environmentId])%list in
    UserClient.GetApplicationUsers client environmentId log = ([], Some e, log')
    /\ (forall id,
           UserClient.GetApplicationUserBySystemApplicationUserId
             client environmentId id log = (None, Some e, log'))
    /\ (forall id update,
           UserClient.UpdateApplicationUser client environmentId id update log
           = (None, Some e, log'))
    /\ (forall id,
           UserClient.DeleteApplicationUser client environmentId id log
           = (Some e, log'))
    /\ (forall id roles,
           UserClient.RemoveSecurityRoles client environmentId id roles log
           = (None, Some e, log'))
    /\ (forall id roles,
           UserClient.AddSecurityRoles client environmentId id roles log
           = (None, Some e, log'))
    /\ (forall businessUnitId,
           UserClient.GetSecurityRoles client environmentId businessUnitId log
           = ([], Some e, log')).
Proof.
  intros client environmentId log e H log'.
  pose proof (GetEnvironmentUrlById_fails client environmentId log e H) as HG.
  unfold UserClient.GetApplicationUsers,
    UserClient.GetApplicationUserBySystemApplicationUserId,
    UserClient.UpdateApplicationUser, UserClient.DeleteApplicationUser,
    UserClient.RemoveSecurityRoles, UserClient.AddSecurityRoles,
    UserClient.GetSecurityRoles.
  rewrite HG. repeat split.
Qed.

Lemma environment_lookup_failure_stops_operation_witness :
  UserClient.AddSecurityRoles
    UserClient.brokenClient
    "env-1" "user-1" ["role-a"; "role-b"] []
  = (None, Some "service unavailable",
     [UserClient.environmentCall
        UserClient.brokenClient "env-1"]).
Proof.
  apply (environment_lookup_failure_stops_operation
           UserClient.brokenClient
           "env-1" [] "service unavailable" eq_refl).
Defined.

Section RoleOperations.

Import UserClient.

Variable client : Client.

Lemma forEachRole_all_ok (call : string -> Call) (roles : list string) :
  (forall l c, fst (api client l c) = None) ->
  forall log,
    forEachRole client call roles log = (None, (log ++ map call roles)%list).
Proof.
  intros Hok. induction roles as [| r rest IH]; intros log.
  - cbn. now rewrite app_nil_r.
  - cbn [forEachRole map]. rewrite Execute_eq, Hok, IH.
    now rewrite <- app_assoc.
Qed.

End RoleOperations.

(** X12: once the environment is found, [AddSecurityRoles] posts the
    roles one by one in the order given and stops at the first post
    that fails.  If the posts for the first [k] roles succeed and the
    next one fails, it returns that error and no user after exactly
    these [k + 1] posts: the roles before the failing one have been
    posted and are not undone, and the roles after it are not posted.
    If no post fails, all roles are posted in order and the result is
    that of reading the user afterwards. *)
Theorem AddSecurityRoles_stops_at_first_failure :
  forall (client : UserClient.Client) (environmentId id : string)
         (roles : list string) (log : list UserClient.Call),
    fst (UserClient.api client log (UserClient.environmentCall client environmentId))
    = None ->
    let base := (log ++ [UserClient.environmentCall client environmentId])%list in
    let environmentUrl :=
      GoStrings.TrimSuffix
        (UserClient.InstanceURL
           (UserClient.LinkedEnvironmentMetadata
              (UserClient.Properties
                 (UserClient.asEnvironment
                    (snd (UserClient.api client log
                            (UserClient.environmentCall client environmentId)))))))
        "/" in
    let post := UserClient.addRoleCall environmentUrl id in
    let outcome j :=
      fst (UserClient.api client (base ++ map post (firstn j roles))%list
             (post (nth j roles EmptyString))) in
    (forall k e,
        (k < List.length roles)%nat ->
        (forall j, (j < k)%nat -> outcome j = None) ->
        outcome k = Some e ->
        UserClient.AddSecurityRoles client environmentId id roles log
        = (None, Some e, (base ++ map post (firstn (S k) roles))%list))
    /\ ((forall j, (j < List.length roles)%nat -> outcome j = None) ->
        UserClient.AddSecurityRoles client environmentId id roles log
        = UserClient.GetApplicationUserBySystemApplicationUserId
            client environmentId id (base ++ map post roles)%list).
Proof.
  intros client environmentId id roles log H base environmentUrl post outcome.
  unfold UserClient.AddSecurityRoles.
  rewrite (GetEnvironmentUrlById_works client environmentId log H).
  fold environmentUrl. fold base. fold post.
  split.
  - intros k e Hk Hok Hfail.
    rewrite (forEachRole_first_failure client post roles base k e Hk Hok Hfail).
    reflexivity.
  - intros Hok.
    rewrite (forEachRole_no_failure client post roles base Hok).
    reflexivity.
Qed.

Lemma AddSecurityRoles_stops_at_first_failure_witness :
  UserClient.AddSecurityRoles UserClient.refusingClient "env-1" "user-1"
    ["role-a"; "role-b"; "role-c"] []
  = (None, Some "role not found",
     [UserClient.environmentCall UserClient.refusingClient "env-1";
      UserClient.addRoleCall "https://org.crm.dynamics.com" "user-1" "role-a";
      UserClient.addRoleCall "https://org.crm.dynamics.com" "user-1" "role-b"]).
Proof.
  refine (proj1 (AddSecurityRoles_stops_at_first_failure
                   UserClient.refusingClient "env-1" "user-1"
                   ["role-a"; "role-b"; "role-c"] [] eq_refl)
                1%nat "role not found" _ _ eq_refl).
  - cbn. lia.
  - intros j Hj. assert (j = 0%nat) as -> by lia. reflexivity.
Defined.

(** X13: [RemoveSecurityRoles] behaves in the same way with its
    DELETE requests.  If the requests for the first [k] roles succeed
    and the next one fails, it returns that error and no user after
    exactly these [k + 1] requests: the roles before the failing one
    stay removed and the roles after it stay assigned.  If no request
    fails, all roles are removed in order and the result is that of
    reading the user afterwards. *)
Theorem RemoveSecurityRoles_stops_at_first_failure :
  forall (client : UserClient.Client) (environmentId id : string)
         (roles : list string) (log : list UserClient.Call),
    fst (UserClient.api client log (UserClient.environmentCall client environmentId))
    = None ->
    let base := (log ++ [UserClient.environmentCall client environmentId])%list in
    let environmentUrl :=
      GoStrings.TrimSuffix
        (UserClient.InstanceURL
           (UserClient.LinkedEnvironmentMetadata
              (UserClient.Properties
                 (UserClient.asEnvironment
                    (snd (UserClient.api client log
                            (UserClient.environmentCall client environmentId)))))))
        "/" in
    let delete := UserClient.removeRoleCall environmentUrl id in
    let outcome j :=
      fst (UserClient.api client (base ++ map delete (firstn j roles))%list
             (delete (nth j roles EmptyString))) in
    (forall k e,
        (k < List.length roles)%nat ->
        (forall j, (j < k)%nat -> outcome j = None) ->
        outcome k = Some e ->
        UserClient.RemoveSecurityRoles client environmentId id roles log
        = (None, Some e, (base ++ map delete (firstn (S k) roles))%list))
    /\ ((forall j, (j < List.length roles)%nat -> outcome j = None) ->
        UserClient.RemoveSecurityRoles client environmentId id roles log
        = UserClient.GetApplicationUserBySystemApplicationUserId
            client environmentId id (base ++ map delete roles)%list).
Proof.
  intros client environmentId id roles log H base environmentUrl delete outcome.
  unfold UserClient.RemoveSecurityRoles.
  rewrite (GetEnvironmentUrlById_works client environmentId log H).
  fold environmentUrl. fold base. fold delete.
  split.
  - intros k e Hk Hok Hfail.
    rewrite (forEachRole_first_failure client delete roles base k e Hk Hok Hfail).
    reflexivity.
  - intros Hok.
    rewrite (forEachRole_no_failure client delete roles base Hok).
    reflexivity.
Qed.

Lemma RemoveSecurityRoles_stops_at_first_failure_witness :
  UserClient.RemoveSecurityRoles UserClient.refusingRemovalClient "env-1" "user-1"
    ["role-a"; "role-b"; "role-c"] []
  = (None, Some "role is not assigned",
     [UserClient.environmentCall UserClient.refusingRemovalClient "env-1";
      UserClient.removeRoleCall "https://org.crm.dynamics.com" "user-1" "role-a";
      UserClient.removeRoleCall "https://org.crm.dynamics.com" "user-1" "role-b"]).
Proof.
  refine (proj1 (RemoveSecurityRoles_stops_at_first_failure
                   UserClient.refusingRemovalClient "env-1" "user-1"
                   ["role-a"; "role-b"; "role-c"] [] eq_refl)
                1%nat "role is not assigned" _ _ eq_refl).
  - cbn. lia.
  - intros j Hj. assert (j = 0%nat) as -> by lia. reflexivity.
Defined.

(** X14: when no request fails, [AddSecurityRoles] for [n] roles makes
    [n + 3] requests: the environment lookup, one POST per role in the
    order given, the environment lookup a second time and the read of
    the user, whose answer is the user returned; the host of the read
    comes from the second lookup. *)
Theorem AddSecurityRoles_requests_when_all_succeed :
  forall (client : UserClient.Client) (environmentId id : string)
         (roles : list string) (log : list UserClient.Call),
    (forall l c, fst (UserClient.api client l c) = None) ->
    let lookup := UserClient.environmentCall client environmentId in
    let urlAt l :=
      GoStrings.TrimSuffix
        (UserClient.InstanceURL
           (UserClient.LinkedEnvironmentMetadata
              (UserClient.Properties
                 (UserClient.asEnvironment (snd (UserClient.api client l lookup))))))
        "/" in
    let posted :=
      (log ++ [lookup] ++ map (UserClient.addRoleCall (urlAt log) id) roles)%list in
    let read := UserClient.userCall (urlAt posted) id in
    UserClient.AddSecurityRoles client environmentId id roles log
    = (Some (UserClient.asUser
               (snd (UserClient.api client (posted ++ [lookup])%list read))),
       None, (posted ++ [lookup; read])%list)
    /\ List.length (posted ++ [lookup; read])%list
       = (List.length log + List.length roles + 3)%nat.
Proof.
  intros client environmentId id roles log Hok lookup urlAt posted read.
  split.
  - unfold UserClient.AddSecurityRoles.
    rewrite (GetEnvironmentUrlById_works client environmentId log (Hok _ _)).
    rewrite (forEachRole_all_ok client _ roles Hok).
    unfold UserClient.GetApplicationUserBySystemApplicationUserId.
    rewrite (GetEnvironmentUrlById_works client environmentId _ (Hok _ _)).
    rewrite Execute_eq, Hok.
    fold lookup. fold (urlAt log).
    replace ((log ++ [lookup]) ++ map (UserClient.addRoleCall (urlAt log) id) roles)%list
      with posted by (unfold posted; now rewrite <- app_assoc).
    fold (urlAt posted). fold read.
    now rewrite <- app_assoc.
  - unfold posted. rewrite !length_app, length_map. cbn. lia.
Qed.

Lemma AddSecurityRoles_requests_when_all_succeed_witness :
  UserClient.AddSecurityRoles UserClient.steadyClient "env-1" "user-1"
    ["role-a"; "role-b"] []
  = (Some UserClient.someUser, None,
     [UserClient.environmentCall UserClient.steadyClient "env-1";
      UserClient.addRoleCall "https://org.crm.dynamics.com" "user-1" "role-a";
      UserClient.addRoleCall "https://org.crm.dynamics.com" "user-1" "role-b";
      UserClient.environmentCall UserClient.steadyClient "env-1";
      UserClient.userCall "https://org.crm.dynamics.com" "user-1"]).
Proof.
  refine (proj1 (AddSecurityRoles_requests_when_all_succeed
                   UserClient.steadyClient "env-1" "user-1"
                   ["role-a"; "role-b"] [] _)).
  intros l c. unfold UserClient.steadyClient, UserClient.steadyApi. cbn [UserClient.api].
  destruct (String.eqb (UserClient.Method c) "GET"); [| reflexivity].
  now destruct (String.eqb (UserClient.Host (UserClient.Url c)) "api.bap.microsoft.com").
Defined.

(** X15: when the environment reports the instance URL [https://h/],
    the client takes [https://h] as the environment URL and sends its
    Dataverse requests to the host [h] over https: one trailing slash
    and the scheme are removed, nothing else. *)
Theorem dataverse_host_from_instance_url :
  forall (client : UserClient.Client) (environmentId id h : string)
         (log : list UserClient.Call) (env : UserClient.EnvironmentIdDto),
    UserClient.api client log (UserClient.environmentCall client environmentId)
    = (None, UserClient.Environment env) ->
    UserClient.InstanceURL
      (UserClient.LinkedEnvironmentMetadata (UserClient.Properties env))
    = ("https://" ++ h ++ "/")%string ->
    UserClient.GetEnvironmentUrlById client environmentId log
    = (("https://" ++ h)%string, None,
       (log ++ [UserClient.environmentCall client environmentId])%list)
    /\ exists c,
        snd (UserClient.GetApplicationUserBySystemApplicationUserId
               client environmentId id log)
        = (log ++ [UserClient.environmentCall client environmentId; c])%list
        /\ UserClient.Method c = "GET"
        /\ UserClient.Scheme (UserClient.Url c) = "https"
        /\ UserClient.Host (UserClient.Url c) = h
        /\ UserClient.Path (UserClient.Url c)
           = ("/api/data/v9.2/systemusers(" ++ id ++ ")")%string.
Proof.
  intros client environmentId id h log env Hapi Hurl.
  assert (HG : UserClient.GetEnvironmentUrlById client environmentId log
               = (("https://" ++ h)%string, None,
                  (log ++ [UserClient.environmentCall client environmentId])%list)).
  { rewrite GetEnvironmentUrlById_works by (now rewrite Hapi).
    rewrite Hapi. cbn [snd UserClient.asEnvironment]. rewrite Hurl.
    change ("https://" ++ h ++ "/")%string with (("https://" ++ h) ++ "/")%string.
    now rewrite TrimSuffix_append. }
  split; [exact HG |].
  exists (UserClient.userCall ("https://" ++ h)%string id).
  split.
  - unfold UserClient.GetApplicationUserBySystemApplicationUserId.
    rewrite HG, Execute_eq.
    destruct (fst (UserClient.api client
                     (log ++ [UserClient.environmentCall client environmentId])
                     (UserClient.userCall ("https://" ++ h) id)));
      cbn [snd]; now rewrite <- app_assoc.
  - repeat split.
    cbn [UserClient.userCall UserClient.Url UserClient.Host].
    unfold UserClient.dataverseHost. apply TrimPrefix_append.
Qed.

Lemma dataverse_host_from_instance_url_witness :
  UserClient.GetEnvironmentUrlById UserClient.steadyClient "env-1" []
  = ("https://org.crm.dynamics.com", None,
     [UserClient.environmentCall UserClient.steadyClient "env-1"]).
Proof.
  exact (proj1 (dataverse_host_from_instance_url
                  UserClient.steadyClient "env-1" "user-1" "org.crm.dynamics.com"
                  [] UserClient.orgEnvironment eq_refl eq_refl)).
Defined.
